(** * PageLoadInstrumentation: a shallow embedding and its properties

    Source: [app/client/src/UITelemetry/PageLoadInstrumentation.ts].

    The class is an event-driven consumer of browser performance signals.
    Its methods are embedded as functions over an explicit state: the
    fields of the instance, and the part of the host (tracer client, timers,
    observers) that the methods talk to.  Calls to the tracer client are
    recorded, in order, in a log; a span handle is the number of the start
    call that returned it.

    Conventions.
    - JavaScript strings are modelled by [string] (8-bit characters); the
      identifiers and URLs the class handles are ASCII.
    - JavaScript numbers are kept abstract ([JsNumber]): the class only
      adds, subtracts, tests truthiness of and prints them, and nothing
      below depends on arithmetic laws.  [Z] is one instance.
    - A value the host supplies when a callback runs ([performance.now()],
      [performance.getEntriesByType("resource")], the visibility state) is
      an explicit argument of the embedded callback.
    - A call to the tracer client returns normally; what a tracer makes of
      the calls is a separate reading of the log. *)

From Stdlib Require Import ZArith String Ascii List Lia Bool.
From stdpp Require Import base gmap strings list pretty.
From Equations Require Import Equations.
Import ListNotations.

Set Implicit Arguments.
Set Warnings "-clear-no-such-hyp".
Local Open Scope string_scope.

(* ===================================================================== *)
(** ** JavaScript string operations used by the class *)
(* ===================================================================== *)

Module JsString.

(** [s.includes(sub)] *)
Fixpoint includes (s sub : string) : bool :=
  String.prefix sub s ||
  match s with
  | EmptyString => false
  | String _ rest => includes rest sub
  end.

(** [s.split(sep)] for a one-character separator. *)
Fixpoint split (s : string) (sep : ascii) : list string :=
  match s with
  | EmptyString => [EmptyString]
  | String c rest =>
      if Ascii.eqb c sep then EmptyString :: split rest sep
      else match split rest sep with
           | [] => [String c EmptyString]
           | piece :: pieces => String c piece :: pieces
           end
  end.

(** [pieces.join(sep)] *)
Definition join (pieces : list string) (sep : string) : string :=
  String.concat sep pieces.

Fixpoint map_chars (f : ascii -> ascii) (s : string) : string :=
  match s with
  | EmptyString => EmptyString
  | String c rest => String (f c) (map_chars f rest)
  end.

(** [s.replace(/c/g, d)]: every occurrence of the character [c] becomes [d]. *)
Definition replace_all (c d : ascii) (s : string) : string :=
  map_chars (fun x => if Ascii.eqb x c then d else x) s.

Definition is_lower (c : ascii) : bool :=
  (97 <=? N_of_ascii c)%N && (N_of_ascii c <=? 122)%N.

Definition upper_char (c : ascii) : ascii :=
  if is_lower c then ascii_of_N (N_of_ascii c - 32) else c.

(** [s.toUpperCase()] on ASCII text. *)
Definition toUpperCase (s : string) : string := map_chars upper_char s.

(** Truthiness of a string: only the empty string is falsy. *)
Definition truthy (s : string) : bool :=
  match s with EmptyString => false | String _ _ => true end.

(** [`${v}`] for a value that is a string or [null]. *)
Definition template_nullable (v : option string) : string :=
  match v with Some s => s | None => "null" end.

(** The mathematical reading of "s contains sub". *)
Definition contains (s sub : string) : Prop :=
  exists pre post, s = pre +:+ sub +:+ post.

End JsString.

(* ===================================================================== *)
(** ** The DOM, as far as [getElementName] reads it *)
(* ===================================================================== *)

(** An [Element] object is a node of the object graph: [parentElement] is a
    reference to another node or [null].  A document resolves references;
    nothing keeps the parent references of a document from forming a
    cycle. *)
Abbreviation NodeRef := nat (only parsing).

Module Element.
Record t := mk {
  tagName : string;
  id : string;
  className : string;
  attributes : gmap string string;
  parentElement : option NodeRef
}.

(** [element.getAttribute(name)]: the value, or [null]. *)
Definition getAttribute (e : t) (name : string) : option string :=
  attributes e !! name.
End Element.

Definition Document := NodeRef -> Element.t.

(** The label of one element,
    [`${element.tagName}${elementId}${className}:${elementTestId}`]. *)
Definition elementName (e : Element.t) : string :=
  let elementTestId := Element.getAttribute e "data-testid" in
  let className :=
    if JsString.truthy (Element.className e)
    then "." +:+ JsString.join (JsString.split (Element.className e) " "%char) "."
    else "" in
  let elementId :=
    if JsString.truthy (Element.id e) then "#" +:+ Element.id e else "" in
  Element.tagName e +:+ elementId +:+ className +:+ ":" +:+
  JsString.template_nullable elementTestId.

(** [getElementName(element, depth)].  [depth] counts levels: the one call
    from outside passes the default 0 and each level adds 1.  The recursion
    follows parent references, which the type does not bound: it is the
    depth limit that makes the function total. *)
Equations? getElementName (doc : Document) (element : option NodeRef) (depth : Z)
  : string by wf (Z.to_nat (4 - depth)) lt :=
  getElementName doc None depth := "";
  getElementName doc (Some r) depth with Z_gt_le_dec depth 3 => {
    | left _ := "";
    | right _ :=
        let parentElementName :=
          getElementName doc (Element.parentElement (doc r)) (depth + 1) in
        parentElementName +:+ " > " +:+ elementName (doc r) }.
Proof. lia. Qed.

(* ===================================================================== *)
(** ** Numbers, attribute values and performance entries *)
(* ===================================================================== *)

(** What the class does with a JavaScript number. *)
Class JsNumber (num : Type) := {
  num_zero : num;                  (* the literal [0] *)
  num_add : num -> num -> num;     (* [a + b] *)
  num_sub : num -> num -> num;     (* [a - b] *)
  num_truthy : num -> bool;        (* [false] for [0] and [NaN] *)
  num_to_string : num -> string    (* [`${a}`] *)
}.

#[export] Instance JsNumber_Z : JsNumber Z := {
  num_zero := 0%Z;
  num_add := Z.add;
  num_sub := Z.sub;
  num_truthy := fun z => negb (z =? 0)%Z;
  num_to_string := pretty
}.

Inductive AttributeValue (num : Type) :=
| AttrNumber (n : num)
| AttrString (s : string)
| AttrUndefined.
Arguments AttrString {num} s.
Arguments AttrUndefined {num}.

(** An attributes object literal, keys in source order. *)
Definition Attributes (num : Type) := list (string * AttributeValue num).

(** A property that may be absent from the object ([undefined]). *)
Definition attr_number_opt {num} (v : option num) : AttributeValue num :=
  match v with Some n => AttrNumber n | None => AttrUndefined end.

Definition attr_string_opt {num} (v : option string) : AttributeValue num :=
  match v with Some s => AttrString s | None => AttrUndefined end.

(** [PerformanceEntry], as delivered for the first-contentful-paint metric. *)
Module PerformanceEntry.
Record t (num : Type) := mk {
  name : string;
  entryType : string;
  startTime : num;
  duration : num
}.
End PerformanceEntry.

(** [LargestContentfulPaint]: the properties the class destructures. *)
Module LargestContentfulPaint.
Record t (num : Type) := mk {
  element : option NodeRef;
  entryType : string;
  loadTime : num;
  renderTime : num;
  startTime : num;
  url : string
}.
End LargestContentfulPaint.

(** [PerformanceNavigationTiming | NavigationTimingPolyfillEntry].  The six
    optional fields are the ones the polyfill entry type omits. *)
Module NavigationTiming.
Record t (num : Type) := mk {
  connectEnd : num;
  connectStart : num;
  domainLookupEnd : num;
  domainLookupStart : num;
  domComplete : num;
  domContentLoadedEventEnd : num;
  domContentLoadedEventStart : num;
  domInteractive : num;
  entryType : string;
  fetchStart : num;
  loadEventEnd : num;
  loadEventStart : num;
  name : string;
  redirectEnd : num;
  redirectStart : num;
  requestStart : num;
  responseEnd : num;
  responseStart : num;
  secureConnectionStart : num;
  startTime : num;
  type : string;
  unloadEventEnd : num;
  unloadEventStart : num;
  workerStart : num;
  decodedBodySize : option num;
  encodedBodySize : option num;
  initiatorType : option string;
  nextHopProtocol : option string;
  redirectCount : option num;
  transferSize : option num
}.
End NavigationTiming.

(** [PerformanceResourceTiming].  [firstInterimResponseStart] and
    [renderBlockingStatus] are read through [any] and may be absent. *)
Module ResourceTiming.
Record t (num : Type) := mk {
  connectEnd : num;
  connectStart : num;
  decodedBodySize : num;
  domainLookupEnd : num;
  domainLookupStart : num;
  duration : num;
  encodedBodySize : num;
  entryType : string;
  fetchStart : num;
  initiatorType : string;
  name : string;
  nextHopProtocol : string;
  redirectEnd : num;
  redirectStart : num;
  requestStart : num;
  responseEnd : num;
  responseStart : num;
  secureConnectionStart : num;
  startTime : num;
  transferSize : num;
  workerStart : num;
  firstInterimResponseStart : option num;
  renderBlockingStatus : option string
}.
End ResourceTiming.

(** The metric reports of web-vitals, reduced to their [attribution]. *)
Module LCPMetricWithAttribution.
Record attribution_t (num : Type) := mk_attribution {
  lcpEntry : option (LargestContentfulPaint.t num)
}.
Record t (num : Type) := mk { attribution : attribution_t num }.
End LCPMetricWithAttribution.

Module FCPMetricWithAttribution.
Record attribution_t (num : Type) := mk_attribution {
  fcpEntry : option (PerformanceEntry.t num);
  navigationEntry : option (NavigationTiming.t num)
}.
Record t (num : Type) := mk { attribution : attribution_t num }.
End FCPMetricWithAttribution.

(* ===================================================================== *)
(** ** The host: tracer client, timers, observers *)
(* ===================================================================== *)

Abbreviation SpanId := nat (only parsing).
Abbreviation TimerId := N (only parsing).
Abbreviation ObserverId := nat (only parsing).

(** One call to the tracer client ([./generateTraces] and the [Span]
    objects it returns), with the handle involved. *)
Inductive TracerCall (num : Type) :=
| StartRootSpan (span : SpanId) (name : string)
    (attributes : Attributes num) (startTime : num)
| StartNestedSpan (span : SpanId) (name : string) (parent : SpanId)
    (attributes : Attributes num) (startTime : num)
| SetAttributes (span : SpanId) (attributes : Attributes num)
| EndSpan (span : SpanId) (endTime : option num).

(** The function handed to [setTimeout].  The class passes the method
    [this.pollResourceTimingEntries] itself, not a bound copy. *)
Inductive TimerCallback :=
| UnboundPollResourceTimingEntries.

Record TimerTask := mkTimerTask {
  timerCallback : TimerCallback;
  timerDelay : Z
}.

Inductive Subscription :=
| SubVisibilityChange
| SubLCP (reportAllChanges : bool)
| SubFCP (reportAllChanges : bool).

Module Host.
Record t (num : Type) := mk {
  tracerCalls : list (TracerCall num);     (* oldest first *)
  nextSpanId : SpanId;
  pendingTimers : gmap TimerId TimerTask;
  nextTimerId : TimerId;
  observing : gset ObserverId;             (* observers that are connected *)
  nextObserverId : ObserverId;
  subscriptions : list Subscription;
  hasPerformanceObserver : bool            (* is the global truthy? *)
}.

(** A host on which nothing has happened yet.  Timer handles are
    positive. *)
Definition initial (num : Type) (hasPO : bool) : t num :=
  {| tracerCalls := []; nextSpanId := 0;
     pendingTimers := ∅; nextTimerId := 1%N;
     observing := ∅; nextObserverId := 0;
     subscriptions := []; hasPerformanceObserver := hasPO |}.
End Host.

(** The fields of a [PageLoadInstrumentation] object. *)
Module Instance.
Record t (num : Type) := mk {
  resourceTimingObserver : option ObserverId;
  rootSpan : SpanId;
  ignoreResourceUrls : list string;
  pageLastHiddenAt : num;
  pageHiddenFor : num;
  wasNavigationEntryPushed : bool;
  resourceEntriesSet : gset string;
  resourceEntryPollTimeout : option TimerId
}.
End Instance.

Record World (num : Type) := mkWorld {
  self : Instance.t num;
  host : Host.t num
}.

(* ===================================================================== *)
(** ** Computations of the class: state and exceptions *)
(* ===================================================================== *)

Inductive JsError :=
| TypeError (message : string).

Inductive Completion (A : Type) :=
| Normal (a : A)
| Throw (e : JsError).
Arguments Throw {A} e.

(** A computation runs on the world and completes normally or abruptly;
    what it did before throwing stays done. *)
Definition Js (num A : Type) := World num -> Completion A * World num.

Definition ret {num A} (a : A) : Js num A := fun w => (Normal a, w).

Definition bind {num A B} (m : Js num A) (k : A -> Js num B) : Js num B :=
  fun w =>
    match m w with
    | (Normal a, w') => k a w'
    | (Throw e, w') => (Throw e, w')
    end.

Definition throw {num A} (e : JsError) : Js num A := fun w => (Throw e, w).

Notation "x <- m ;; k" := (bind m (fun x => k))
  (at level 100, m at next level, right associativity).
Notation "m ;;; k" := (bind m (fun _ => k))
  (at level 100, right associativity).

Definition getSelf {num} : Js num (Instance.t num) := fun w => (Normal (self w), w).

Definition modifySelf {num} (f : Instance.t num -> Instance.t num) : Js num unit :=
  fun w => (Normal tt, {| self := f (self w); host := host w |}).

Definition getHost {num} : Js num (Host.t num) := fun w => (Normal (host w), w).

Definition modifyHost {num} (f : Host.t num -> Host.t num) : Js num unit :=
  fun w => (Normal tt, {| self := self w; host := f (host w) |}).

(** [list.forEach(f)] *)
Fixpoint forEach {num A} (l : list A) (f : A -> Js num unit) : Js num unit :=
  match l with
  | [] => ret tt
  | x :: rest => f x ;;; forEach rest f
  end.

Definition execute {num A} (m : Js num A) (w : World num) : World num := snd (m w).

Definition completion {num A} (m : Js num A) (w : World num) : Completion A := fst (m w).

(** Field assignments. *)
Section Assignments.
Context {num : Type}.
Import Instance.

Definition set_resourceTimingObserver (v : option ObserverId) (s : Instance.t num) :=
  {| resourceTimingObserver := v; rootSpan := rootSpan s;
     ignoreResourceUrls := ignoreResourceUrls s;
     pageLastHiddenAt := pageLastHiddenAt s; pageHiddenFor := pageHiddenFor s;
     wasNavigationEntryPushed := wasNavigationEntryPushed s;
     resourceEntriesSet := resourceEntriesSet s;
     resourceEntryPollTimeout := resourceEntryPollTimeout s |}.

Definition set_pageLastHiddenAt (v : num) (s : Instance.t num) :=
  {| resourceTimingObserver := resourceTimingObserver s; rootSpan := rootSpan s;
     ignoreResourceUrls := ignoreResourceUrls s;
     pageLastHiddenAt := v; pageHiddenFor := pageHiddenFor s;
     wasNavigationEntryPushed := wasNavigationEntryPushed s;
     resourceEntriesSet := resourceEntriesSet s;
     resourceEntryPollTimeout := resourceEntryPollTimeout s |}.

Definition set_pageHiddenFor (v : num) (s : Instance.t num) :=
  {| resourceTimingObserver := resourceTimingObserver s; rootSpan := rootSpan s;
     ignoreResourceUrls := ignoreResourceUrls s;
     pageLastHiddenAt := pageLastHiddenAt s; pageHiddenFor := v;
     wasNavigationEntryPushed := wasNavigationEntryPushed s;
     resourceEntriesSet := resourceEntriesSet s;
     resourceEntryPollTimeout := resourceEntryPollTimeout s |}.

Definition set_wasNavigationEntryPushed (v : bool) (s : Instance.t num) :=
  {| resourceTimingObserver := resourceTimingObserver s; rootSpan := rootSpan s;
     ignoreResourceUrls := ignoreResourceUrls s;
     pageLastHiddenAt := pageLastHiddenAt s; pageHiddenFor := pageHiddenFor s;
     wasNavigationEntryPushed := v;
     resourceEntriesSet := resourceEntriesSet s;
     resourceEntryPollTimeout := resourceEntryPollTimeout s |}.

Definition set_resourceEntriesSet (v : gset string) (s : Instance.t num) :=
  {| resourceTimingObserver := resourceTimingObserver s; rootSpan := rootSpan s;
     ignoreResourceUrls := ignoreResourceUrls s;
     pageLastHiddenAt := pageLastHiddenAt s; pageHiddenFor := pageHiddenFor s;
     wasNavigationEntryPushed := wasNavigationEntryPushed s;
     resourceEntriesSet := v;
     resourceEntryPollTimeout := resourceEntryPollTimeout s |}.

Definition set_resourceEntryPollTimeout (v : option TimerId) (s : Instance.t num) :=
  {| resourceTimingObserver := resourceTimingObserver s; rootSpan := rootSpan s;
     ignoreResourceUrls := ignoreResourceUrls s;
     pageLastHiddenAt := pageLastHiddenAt s; pageHiddenFor := pageHiddenFor s;
     wasNavigationEntryPushed := wasNavigationEntryPushed s;
     resourceEntriesSet := resourceEntriesSet s;
     resourceEntryPollTimeout := v |}.

End Assignments.

(** The host's side of each call the class makes. *)
Section HostCalls.
Context {num : Type}.
Import Host.

Definition logCall (c : TracerCall num) (h : Host.t num) : Host.t num :=
  {| tracerCalls := tracerCalls h ++ [c]; nextSpanId := nextSpanId h;
     pendingTimers := pendingTimers h; nextTimerId := nextTimerId h;
     observing := observing h; nextObserverId := nextObserverId h;
     subscriptions := subscriptions h;
     hasPerformanceObserver := hasPerformanceObserver h |}.

Definition allocSpan (h : Host.t num) : Host.t num :=
  {| tracerCalls := tracerCalls h; nextSpanId := S (nextSpanId h);
     pendingTimers := pendingTimers h; nextTimerId := nextTimerId h;
     observing := observing h; nextObserverId := nextObserverId h;
     subscriptions := subscriptions h;
     hasPerformanceObserver := hasPerformanceObserver h |}.

Definition withTimers (timers : gmap TimerId TimerTask) (next : TimerId)
  (h : Host.t num) : Host.t num :=
  {| tracerCalls := tracerCalls h; nextSpanId := nextSpanId h;
     pendingTimers := timers; nextTimerId := next;
     observing := observing h; nextObserverId := nextObserverId h;
     subscriptions := subscriptions h;
     hasPerformanceObserver := hasPerformanceObserver h |}.

Definition withObservers (obs : gset ObserverId) (next : ObserverId)
  (h : Host.t num) : Host.t num :=
  {| tracerCalls := tracerCalls h; nextSpanId := nextSpanId h;
     pendingTimers := pendingTimers h; nextTimerId := nextTimerId h;
     observing := obs; nextObserverId := next;
     subscriptions := subscriptions h;
     hasPerformanceObserver := hasPerformanceObserver h |}.

Definition subscribe (s : Subscription) (h : Host.t num) : Host.t num :=
  {| tracerCalls := tracerCalls h; nextSpanId := nextSpanId h;
     pendingTimers := pendingTimers h; nextTimerId := nextTimerId h;
     observing := observing h; nextObserverId := nextObserverId h;
     subscriptions := subscriptions h ++ [s];
     hasPerformanceObserver := hasPerformanceObserver h |}.

(** The host after a run of tracer calls, [n] of which started a span. *)
Definition emit (calls : list (TracerCall num)) (n : nat) (h : Host.t num)
  : Host.t num :=
  {| tracerCalls := tracerCalls h ++ calls; nextSpanId := n + nextSpanId h;
     pendingTimers := pendingTimers h; nextTimerId := nextTimerId h;
     observing := observing h; nextObserverId := nextObserverId h;
     subscriptions := subscriptions h;
     hasPerformanceObserver := hasPerformanceObserver h |}.

(** [startRootSpan(name, attributes, startTime)] *)
Definition startRootSpan (name : string) (attrs : Attributes num) (startTime : num)
  : Js num SpanId :=
  h <- getHost ;;
  let span := nextSpanId h in
  modifyHost (fun h => allocSpan (logCall (StartRootSpan span name attrs startTime) h)) ;;;
  ret span.

(** [startNestedSpan(name, parent, attributes, startTime)] *)
Definition startNestedSpan (name : string) (parent : SpanId)
  (attrs : Attributes num) (startTime : num) : Js num SpanId :=
  h <- getHost ;;
  let span := nextSpanId h in
  modifyHost (fun h => allocSpan (logCall (StartNestedSpan span name parent attrs startTime) h)) ;;;
  ret span.

(** [span.setAttributes(attributes)] *)
Definition setAttributes (span : SpanId) (attrs : Attributes num) : Js num unit :=
  modifyHost (logCall (SetAttributes span attrs)).

(** [span.end(endTime)]; [None] is the call without an argument. *)
Definition endSpan (span : SpanId) (endTime : option num) : Js num unit :=
  modifyHost (logCall (EndSpan span endTime)).

(** [setTimeout(callback, delay)] *)
Definition setTimeout (callback : TimerCallback) (delay : Z) : Js num TimerId :=
  h <- getHost ;;
  let timer := nextTimerId h in
  modifyHost (withTimers
    (<[timer := mkTimerTask callback delay]> (pendingTimers h)) (N.succ timer)) ;;;
  ret timer.

(** [clearInterval(timer)].  Timeouts and intervals share one pool of
    handles, so this cancels a pending timeout as well. *)
Definition clearInterval (timer : TimerId) : Js num unit :=
  modifyHost (fun h => withTimers (delete timer (pendingTimers h)) (nextTimerId h) h).

(** [new PerformanceObserver(callback)] followed by
    [observer.observe({ type: "resource", buffered: true })]. *)
Definition newPerformanceObserver : Js num ObserverId :=
  h <- getHost ;;
  let o := nextObserverId h in
  modifyHost (withObservers (observing h) (S o)) ;;;
  ret o.

Definition observe (o : ObserverId) : Js num unit :=
  modifyHost (fun h => withObservers ({[o]} ∪ observing h) (nextObserverId h) h).

(** [observer.disconnect()] *)
Definition disconnect (o : ObserverId) : Js num unit :=
  modifyHost (fun h => withObservers (observing h ∖ {[o]}) (nextObserverId h) h).

End HostCalls.

(* ===================================================================== *)
(** ** The class [PageLoadInstrumentation] *)
(* ===================================================================== *)

(** The receiver of a method call.  A method called on the instance has
    [this] bound to it.  A method handed over as a bare function value and
    called by the host later runs with a receiver of the host's choosing
    (the global object, for a browser timer), which has none of the
    members of the class. *)
Inductive Receiver :=
| ThisInstance
| ThisOfHost.

Section PageLoadInstrumentation.
Context {num : Type} `{JsNumber num}.

(** [constructor({ ignoreResourceUrls = [] })].  The field initialisers,
    then the body; [super(...)] belongs to the external base class. *)
Definition construct (ignoreResourceUrls : option (list string)) (h : Host.t num)
  : World num :=
  let span := Host.nextSpanId h in
  {| self :=
       {| Instance.resourceTimingObserver := None;
          Instance.rootSpan := span;
          Instance.ignoreResourceUrls := default [] ignoreResourceUrls;
          Instance.pageLastHiddenAt := num_zero;
          Instance.pageHiddenFor := num_zero;
          Instance.wasNavigationEntryPushed := false;
          Instance.resourceEntriesSet := ∅;
          Instance.resourceEntryPollTimeout := None |};
     host := allocSpan (logCall (StartRootSpan span "PAGE_LOAD" [] num_zero) h) |}.

(** The listener registered by [addVisibilityChangeListener], run with the
    current [document.visibilityState] and [performance.now()]. *)
Definition onVisibilityChange (visibilityState : string) (now : num) : Js num unit :=
  if String.eqb visibilityState "hidden" then
    modifySelf (set_pageLastHiddenAt now)
  else
    let endTime := now in
    s <- getSelf ;;
    modifySelf (set_pageHiddenFor (num_sub endTime (Instance.pageLastHiddenAt s))).

Definition addVisibilityChangeListener : Js num unit :=
  modifyHost (subscribe SubVisibilityChange).

Definition kebabToScreamingSnakeCase (str : string) : string :=
  JsString.toUpperCase (JsString.replace_all "-"%char "_"%char str).

Definition pushPaintTimingToSpan (entry : PerformanceEntry.t num) : Js num unit :=
  s <- getSelf ;;
  paintSpan <- startNestedSpan
    (kebabToScreamingSnakeCase (PerformanceEntry.name entry))
    (Instance.rootSpan s) [] num_zero ;;
  endSpan paintSpan (Some (PerformanceEntry.startTime entry)).

Definition pushLcpTimingToSpan (doc : Document) (entry : LargestContentfulPaint.t num)
  : Js num unit :=
  let element := LargestContentfulPaint.element entry in
  let entryType := LargestContentfulPaint.entryType entry in
  let loadTime := LargestContentfulPaint.loadTime entry in
  let renderTime := LargestContentfulPaint.renderTime entry in
  let startTime := LargestContentfulPaint.startTime entry in
  let url := LargestContentfulPaint.url entry in
  s <- getSelf ;;
  lcpSpan <- startNestedSpan
    (kebabToScreamingSnakeCase entryType)
    (Instance.rootSpan s)
    [ ("url", AttrString url);
      ("renderTime", AttrNumber renderTime);
      ("element", AttrString (getElementName doc element 0));
      ("entryType", AttrString entryType);
      ("loadTime", AttrNumber loadTime);
      ("pageHiddenFor", AttrNumber (Instance.pageHiddenFor s)) ]
    num_zero ;;
  endSpan lcpSpan (Some startTime).

(** [v || 0] and [v || d] for a property that may be absent. *)
Definition orZero (v : option num) : num :=
  match v with
  | Some n => if num_truthy n then n else num_zero
  | None => num_zero
  end.

Definition orString (v : option string) (d : string) : string :=
  match v with
  | Some s => if JsString.truthy s then s else d
  | None => d
  end.

Definition navigationAttributes (entry : NavigationTiming.t num) : Attributes num :=
  let e := entry in
  [ ("connectEnd", AttrNumber (NavigationTiming.connectEnd e));
    ("connectStart", AttrNumber (NavigationTiming.connectStart e));
    ("decodedBodySize", AttrNumber (orZero (NavigationTiming.decodedBodySize e)));
    ("domComplete", AttrNumber (NavigationTiming.domComplete e));
    ("domContentLoadedEventEnd", AttrNumber (NavigationTiming.domContentLoadedEventEnd e));
    ("domContentLoadedEventStart", AttrNumber (NavigationTiming.domContentLoadedEventStart e));
    ("domInteractive", AttrNumber (NavigationTiming.domInteractive e));
    ("domainLookupEnd", AttrNumber (NavigationTiming.domainLookupEnd e));
    ("domainLookupStart", AttrNumber (NavigationTiming.domainLookupStart e));
    ("encodedBodySize", AttrNumber (orZero (NavigationTiming.encodedBodySize e)));
    ("entryType", AttrString (NavigationTiming.entryType e));
    ("fetchStart", AttrNumber (NavigationTiming.fetchStart e));
    ("initiatorType", AttrString (orString (NavigationTiming.initiatorType e) "navigation"));
    ("loadEventEnd", AttrNumber (NavigationTiming.loadEventEnd e));
    ("loadEventStart", AttrNumber (NavigationTiming.loadEventStart e));
    ("nextHopProtocol", AttrString (orString (NavigationTiming.nextHopProtocol e) ""));
    ("redirectCount", AttrNumber (orZero (NavigationTiming.redirectCount e)));
    ("redirectEnd", AttrNumber (NavigationTiming.redirectEnd e));
    ("redirectStart", AttrNumber (NavigationTiming.redirectStart e));
    ("requestStart", AttrNumber (NavigationTiming.requestStart e));
    ("responseEnd", AttrNumber (NavigationTiming.responseEnd e));
    ("responseStart", AttrNumber (NavigationTiming.responseStart e));
    ("secureConnectionStart", AttrNumber (NavigationTiming.secureConnectionStart e));
    ("navigationStartTime", AttrNumber (NavigationTiming.startTime e));
    ("transferSize", AttrNumber (orZero (NavigationTiming.transferSize e)));
    ("navigationType", AttrString (NavigationTiming.type e));
    ("url", AttrString (NavigationTiming.name e));
    ("unloadEventEnd", AttrNumber (NavigationTiming.unloadEventEnd e));
    ("unloadEventStart", AttrNumber (NavigationTiming.unloadEventStart e));
    ("workerStart", AttrNumber (NavigationTiming.workerStart e)) ].

(** [this.rootSpan] is always a span object, so [?.] takes the call. *)
Definition pushNavigationTimingToSpan (entry : NavigationTiming.t num) : Js num unit :=
  s <- getSelf ;;
  setAttributes (Instance.rootSpan s) (navigationAttributes entry) ;;;
  endSpan (Instance.rootSpan s)
    (Some (NavigationTiming.domContentLoadedEventEnd entry)).

Definition onLCPReport (doc : Document) (metric : LCPMetricWithAttribution.t num)
  : Js num unit :=
  match LCPMetricWithAttribution.lcpEntry
          (LCPMetricWithAttribution.attribution metric) with
  | Some lcpEntry => pushLcpTimingToSpan doc lcpEntry
  | None => ret tt
  end.

Definition onFCPReport (metric : FCPMetricWithAttribution.t num) : Js num unit :=
  let fcpEntry :=
    FCPMetricWithAttribution.fcpEntry (FCPMetricWithAttribution.attribution metric) in
  let navigationEntry :=
    FCPMetricWithAttribution.navigationEntry
      (FCPMetricWithAttribution.attribution metric) in
  s <- getSelf ;;
  match navigationEntry with
  | Some entry =>
      if negb (Instance.wasNavigationEntryPushed s) then
        pushNavigationTimingToSpan entry ;;;
        modifySelf (set_wasNavigationEntryPushed true)
      else ret tt
  | None => ret tt
  end ;;;
  match fcpEntry with
  | Some entry => pushPaintTimingToSpan entry
  | None => ret tt
  end.

Definition getResourcesToTrack (s : Instance.t num)
  (resources : list (ResourceTiming.t num)) : list (ResourceTiming.t num) :=
  List.filter
    (fun entry =>
       negb (existsb
               (fun ignoreUrl => JsString.includes (ResourceTiming.name entry) ignoreUrl)
               (Instance.ignoreResourceUrls s)))
    resources.

Definition resourceAttributes (entry : ResourceTiming.t num) : Attributes num :=
  let e := entry in
  [ ("connectEnd", AttrNumber (ResourceTiming.connectEnd e));
    ("connectStart", AttrNumber (ResourceTiming.connectStart e));
    ("decodedBodySize", AttrNumber (ResourceTiming.decodedBodySize e));
    ("domainLookupEnd", AttrNumber (ResourceTiming.domainLookupEnd e));
    ("domainLookupStart", AttrNumber (ResourceTiming.domainLookupStart e));
    ("encodedBodySize", AttrNumber (ResourceTiming.encodedBodySize e));
    ("entryType", AttrString (ResourceTiming.entryType e));
    ("fetchStart", AttrNumber (ResourceTiming.fetchStart e));
    ("firstInterimResponseStart",
       attr_number_opt (ResourceTiming.firstInterimResponseStart e));
    ("initiatorType", AttrString (ResourceTiming.initiatorType e));
    ("nextHopProtocol", AttrString (ResourceTiming.nextHopProtocol e));
    ("redirectEnd", AttrNumber (ResourceTiming.redirectEnd e));
    ("redirectStart", AttrNumber (ResourceTiming.redirectStart e));
    ("requestStart", AttrNumber (ResourceTiming.requestStart e));
    ("responseEnd", AttrNumber (ResourceTiming.responseEnd e));
    ("responseStart", AttrNumber (ResourceTiming.responseStart e));
    ("resourceDuration", AttrNumber (ResourceTiming.duration e));
    ("secureConnectionStart", AttrNumber (ResourceTiming.secureConnectionStart e));
    ("transferSize", AttrNumber (ResourceTiming.transferSize e));
    ("url", AttrString (ResourceTiming.name e));
    ("workerStart", AttrNumber (ResourceTiming.workerStart e));
    ("renderBlockingStatus", attr_string_opt (ResourceTiming.renderBlockingStatus e)) ].

Definition pushResourceTimingToSpan (entry : ResourceTiming.t num) : Js num unit :=
  s <- getSelf ;;
  resourceSpan <- startNestedSpan
    (ResourceTiming.name entry)
    (Instance.rootSpan s)
    (resourceAttributes entry)
    (ResourceTiming.startTime entry) ;;
  endSpan resourceSpan
    (Some (num_add (ResourceTiming.startTime entry) (ResourceTiming.responseEnd entry))).

(** The callback given to [new PerformanceObserver], run on the entries
    of one delivered list. *)
Definition resourceTimingObserverCallback (entries : list (ResourceTiming.t num))
  : Js num unit :=
  s <- getSelf ;;
  let resources := getResourcesToTrack s entries in
  forEach resources pushResourceTimingToSpan.

Definition observeResourceTimings : Js num unit :=
  o <- newPerformanceObserver ;;
  modifySelf (set_resourceTimingObserver (Some o)) ;;;
  observe o.

Definition getResourceEntryKey (entry : ResourceTiming.t num) : string :=
  ResourceTiming.name entry +:+ ":" +:+
  num_to_string (ResourceTiming.startTime entry) +:+ ":" +:+
  ResourceTiming.entryType entry.

(** Truthiness of the timer handle stored in [resourceEntryPollTimeout]
    ([number | null]). *)
Definition timerTruthy (t : option TimerId) : bool :=
  match t with
  | Some n => negb (n =? 0)%N
  | None => false
  end.

(** [pollResourceTimingEntries()], run with [resources] being what
    [performance.getEntriesByType("resource")] returns at that time.
    With a receiver other than the instance, [this.resourceEntryPollTimeout]
    is [undefined] and the first member call, [this.getResourcesToTrack(...)],
    is a call of [undefined]. *)
Definition pollResourceTimingEntries (this : Receiver)
  (resources : list (ResourceTiming.t num)) : Js num unit :=
  match this with
  | ThisOfHost => throw (TypeError "this.getResourcesToTrack is not a function")
  | ThisInstance =>
      s <- getSelf ;;
      (if timerTruthy (Instance.resourceEntryPollTimeout s) then
         match Instance.resourceEntryPollTimeout s with
         | Some timer => clearInterval timer
         | None => ret tt
         end
       else ret tt) ;;;
      let filteredResources := getResourcesToTrack s resources in
      forEach filteredResources (fun entry =>
        let key := getResourceEntryKey entry in
        s <- getSelf ;;
        if negb (bool_decide (key ∈ Instance.resourceEntriesSet s)) then
          pushResourceTimingToSpan entry ;;;
          modifySelf (fun s =>
            set_resourceEntriesSet ({[key]} ∪ Instance.resourceEntriesSet s) s)
        else ret tt) ;;;
      timer <- setTimeout UnboundPollResourceTimingEntries 5000 ;;
      modifySelf (set_resourceEntryPollTimeout (Some timer))
  end.

(** [enable()].  The branch is taken on the truthiness of the global
    [PerformanceObserver]; [resources] is used only if the polling branch
    is taken. *)
Definition enable (resources : list (ResourceTiming.t num)) : Js num unit :=
  addVisibilityChangeListener ;;;
  modifyHost (subscribe (SubLCP true)) ;;;
  modifyHost (subscribe (SubFCP true)) ;;;
  h <- getHost ;;
  if Host.hasPerformanceObserver h then observeResourceTimings
  else pollResourceTimingEntries ThisInstance resources.

(** [disable()]; [this.rootSpan] is always a span object. *)
Definition disable : Js num unit :=
  s <- getSelf ;;
  match Instance.resourceTimingObserver s with
  | Some o => disconnect o
  | None => ret tt
  end ;;;
  endSpan (Instance.rootSpan s) None.

End PageLoadInstrumentation.

(* ===================================================================== *)
(** ** The host drives the instance *)
(* ===================================================================== *)

(** What can happen to an instance after its construction: a call of its
    public interface, or the host running one of the callbacks the class
    registered.  Each carries the values the host supplies. *)
Inductive Event (num : Type) :=
| EvEnable (resources : list (ResourceTiming.t num))
| EvDisable
| EvVisibilityChange (visibilityState : string) (now : num)
| EvLCPReport (doc : Document) (metric : LCPMetricWithAttribution.t num)
| EvFCPReport (metric : FCPMetricWithAttribution.t num)
| EvObserverEntries (o : ObserverId) (entries : list (ResourceTiming.t num))
| EvTimer (timer : TimerId) (resources : list (ResourceTiming.t num)).
Arguments EvDisable {num}.

Section EventLoop.
Context {num : Type} `{JsNumber num}.

Definition runTimerCallback (callback : TimerCallback)
  (resources : list (ResourceTiming.t num)) : Js num unit :=
  match callback with
  | UnboundPollResourceTimingEntries => pollResourceTimingEntries ThisOfHost resources
  end.

(** An observer delivers entries only while it is connected; a timer
    fires only while it is pending, and is spent by firing. *)
Definition deliver (ev : Event num) : Js num unit :=
  match ev with
  | EvEnable resources => enable resources
  | EvDisable => disable
  | EvVisibilityChange visibilityState now => onVisibilityChange visibilityState now
  | EvLCPReport doc metric => onLCPReport doc metric
  | EvFCPReport metric => onFCPReport metric
  | EvObserverEntries o entries =>
      h <- getHost ;;
      if bool_decide (o ∈ Host.observing h)
      then resourceTimingObserverCallback entries
      else ret tt
  | EvTimer timer resources =>
      h <- getHost ;;
      match Host.pendingTimers h !! timer with
      | Some task =>
          modifyHost (fun h =>
            withTimers (delete timer (Host.pendingTimers h)) (Host.nextTimerId h) h) ;;;
          runTimerCallback (timerCallback task) resources
      | None => ret tt
      end
  end.

(** An exception that escapes a callback is reported by the host and the
    page goes on. *)
Definition step (ev : Event num) (w : World num) : World num :=
  execute (deliver ev) w.

Definition run (evs : list (Event num)) (w : World num) : World num :=
  fold_left (fun w ev => step ev w) evs w.

Definition tracerLog (w : World num) : list (TracerCall num) :=
  Host.tracerCalls (host w).

End EventLoop.

(* ===================================================================== *)
(** ** Reference readings used in the statements *)
(* ===================================================================== *)



(** A document in which node [k] has parent [k + 1] up to node [top], which
    has none: node [0] is nested [top] ancestors deep. *)
Definition chainDocument (top : nat) : Document :=
  fun r =>
    {| Element.tagName := "DIV";
       Element.id := pretty r;
       Element.className := "";
       Element.attributes := ∅;
       Element.parentElement := if (r <? top)%nat then Some (S r) else None |}.

(** A document whose parent references form a cycle. *)
Definition loopDocument : Document :=
  fun r =>
    {| Element.tagName := "P"; Element.id := ""; Element.className := "a b";
       Element.attributes := {[ "data-testid" := "t" ]};
       Element.parentElement := Some r |}.

Section Readings.
Context {num : Type} `{JsNumber num}.

(** The two tracer calls that turn one resource entry into a span. *)
Definition resourceSpanCalls (root span : SpanId) (entry : ResourceTiming.t num)
  : list (TracerCall num) :=
  [ StartNestedSpan span (ResourceTiming.name entry) root
      (resourceAttributes entry) (ResourceTiming.startTime entry);
    EndSpan span
      (Some (num_add (ResourceTiming.startTime entry)
                     (ResourceTiming.responseEnd entry))) ].

(** The same for a list of entries, with consecutive handles from [span]. *)
Fixpoint resourceSpansFrom (root span : SpanId) (entries : list (ResourceTiming.t num))
  : list (TracerCall num) :=
  match entries with
  | [] => []
  | entry :: rest =>
      resourceSpanCalls root span entry ++ resourceSpansFrom root (S span) rest
  end.

(** The entries of a list whose key is neither in [seen] nor carried by an
    earlier entry of the list. *)
Fixpoint freshEntries (seen : gset string) (entries : list (ResourceTiming.t num))
  : list (ResourceTiming.t num) :=
  match entries with
  | [] => []
  | entry :: rest =>
      if bool_decide (getResourceEntryKey entry ∈ seen)
      then freshEntries seen rest
      else entry :: freshEntries ({[getResourceEntryKey entry]} ∪ seen) rest
  end.

Definition keysOf (entries : list (ResourceTiming.t num)) : gset string :=
  list_to_set (map getResourceEntryKey entries).

(** Reading an attribute back from an attributes object. *)
Definition attrLookup (key : string) (attrs : Attributes num)
  : option (AttributeValue num) :=
  snd <$> List.find (fun kv => String.eqb (fst kv) key) attrs.

(** Is this the start of a span made from a resource entry?  Those, and
    only those, carry the attribute [resourceDuration]. *)
Definition isResourceSpan (c : TracerCall num) : bool :=
  match c with
  | StartNestedSpan _ _ _ attrs _ =>
      match attrLookup "resourceDuration" attrs with
      | Some _ => true
      | None => false
      end
  | _ => false
  end.

(** The resource identity of such a span, read off the call: its name,
    start time and [entryType] attribute. *)
Definition resourceSpanIdentity (c : TracerCall num)
  : option (string * num * string) :=
  match c with
  | StartNestedSpan _ name _ attrs startTime =>
      if isResourceSpan c then
        match attrLookup "entryType" attrs with
        | Some (AttrString entryType) => Some (name, startTime, entryType)
        | _ => None
        end
      else None
  | _ => None
  end.

(** The identity as the key string of [getResourceEntryKey]. *)
Definition keyOfIdentity (i : string * num * string) : string :=
  fst (fst i) +:+ ":" +:+ num_to_string (snd (fst i)) +:+ ":" +:+ snd i.

Definition resourceSpanKey (c : TracerCall num) : option string :=
  keyOfIdentity <$> resourceSpanIdentity c.

(** The pending timers once a poll cycle has cleared its previous handle. *)
Definition timersAfterClear (w : World num) : gmap TimerId TimerTask :=
  match Instance.resourceEntryPollTimeout (self w) with
  | Some timer =>
      if (timer =? 0)%N then Host.pendingTimers (host w)
      else delete timer (Host.pendingTimers (host w))
  | None => Host.pendingTimers (host w)
  end.

(** The world after one poll cycle run on the instance. *)
Definition afterPoll (resources : list (ResourceTiming.t num)) (w : World num)
  : World num :=
  let filtered := getResourcesToTrack (self w) resources in
  let seen := Instance.resourceEntriesSet (self w) in
  let timer := Host.nextTimerId (host w) in
  {| self :=
       set_resourceEntryPollTimeout (Some timer)
         (set_resourceEntriesSet (keysOf filtered ∪ seen) (self w));
     host :=
       withTimers
         (<[timer := mkTimerTask UnboundPollResourceTimingEntries 5000]>
            (timersAfterClear w))
         (N.succ timer)
         (emit (resourceSpansFrom (Instance.rootSpan (self w))
                  (Host.nextSpanId (host w)) (freshEntries seen filtered))
               (length (freshEntries seen filtered)) (host w)) |}.

(** Every key that has a span in the log is in the dedup set, and no key
    has two. *)
Definition dedupCovers (w : World num) : Prop :=
  NoDup (omap resourceSpanKey (tracerLog w)) /\
  forall k, k ∈ omap resourceSpanKey (tracerLog w) ->
            k ∈ Instance.resourceEntriesSet (self w).

(** A resource entry with the given name and times, and nothing else of
    note. *)
Definition sampleResource (name : string) (startTime responseEnd : num)
  : ResourceTiming.t num :=
  {| ResourceTiming.connectEnd := num_zero; ResourceTiming.connectStart := num_zero;
     ResourceTiming.decodedBodySize := num_zero;
     ResourceTiming.domainLookupEnd := num_zero;
     ResourceTiming.domainLookupStart := num_zero;
     ResourceTiming.duration := responseEnd;
     ResourceTiming.encodedBodySize := num_zero;
     ResourceTiming.entryType := "resource";
     ResourceTiming.fetchStart := startTime;
     ResourceTiming.initiatorType := "script";
     ResourceTiming.name := name;
     ResourceTiming.nextHopProtocol := "h2";
     ResourceTiming.redirectEnd := num_zero; ResourceTiming.redirectStart := num_zero;
     ResourceTiming.requestStart := startTime;
     ResourceTiming.responseEnd := responseEnd;
     ResourceTiming.responseStart := startTime;
     ResourceTiming.secureConnectionStart := num_zero;
     ResourceTiming.startTime := startTime;
     ResourceTiming.transferSize := num_zero;
     ResourceTiming.workerStart := num_zero;
     ResourceTiming.firstInterimResponseStart := None;
     ResourceTiming.renderBlockingStatus := None |}.

(** Upper snake case, character by character: a hyphen becomes an
    underscore, a lower-case letter its capital. *)
Definition screamingChar (c : ascii) : ascii :=
  if Ascii.eqb c "-"%char then "_"%char else JsString.upper_char c.

(** A call that starts or ends a span with a handle from [span] on. *)
Definition onSpanFrom (span : SpanId) (c : TracerCall num) : Prop :=
  match c with
  | StartNestedSpan s _ _ _ _ => span <= s
  | EndSpan s _ => span <= s
  | _ => False
  end.

(** A navigation entry, as the polyfill delivers it, with the given
    [domContentLoadedEventEnd]. *)
Definition sampleNavigation (domContentLoadedEventEnd : num)
  : NavigationTiming.t num :=
  {| NavigationTiming.connectEnd := num_zero;
     NavigationTiming.connectStart := num_zero;
     NavigationTiming.domainLookupEnd := num_zero;
     NavigationTiming.domainLookupStart := num_zero;
     NavigationTiming.domComplete := domContentLoadedEventEnd;
     NavigationTiming.domContentLoadedEventEnd := domContentLoadedEventEnd;
     NavigationTiming.domContentLoadedEventStart := domContentLoadedEventEnd;
     NavigationTiming.domInteractive := domContentLoadedEventEnd;
     NavigationTiming.entryType := "navigation";
     NavigationTiming.fetchStart := num_zero;
     NavigationTiming.loadEventEnd := num_zero;
     NavigationTiming.loadEventStart := num_zero;
     NavigationTiming.name := "https://x/";
     NavigationTiming.redirectEnd := num_zero;
     NavigationTiming.redirectStart := num_zero;
     NavigationTiming.requestStart := num_zero;
     NavigationTiming.responseEnd := num_zero;
     NavigationTiming.responseStart := num_zero;
     NavigationTiming.secureConnectionStart := num_zero;
     NavigationTiming.startTime := num_zero;
     NavigationTiming.type := "navigate";
     NavigationTiming.unloadEventEnd := num_zero;
     NavigationTiming.unloadEventStart := num_zero;
     NavigationTiming.workerStart := num_zero;
     NavigationTiming.decodedBodySize := None;
     NavigationTiming.encodedBodySize := None;
     NavigationTiming.initiatorType := None;
     NavigationTiming.nextHopProtocol := None;
     NavigationTiming.redirectCount := None;
     NavigationTiming.transferSize := None |}.

(** A first-paint report with the given entries. *)
Definition fcpReport (fcpEntry : option (PerformanceEntry.t num))
  (navigationEntry : option (NavigationTiming.t num))
  : FCPMetricWithAttribution.t num :=
  FCPMetricWithAttribution.mk
    (FCPMetricWithAttribution.mk_attribution fcpEntry navigationEntry).

(** The fallback strategy: the host has no [PerformanceObserver], and so
    no observer is connected. *)
Definition pollStrategy (w : World num) : Prop :=
  Host.hasPerformanceObserver (host w) = false /\ Host.observing (host w) = ∅.

(** A run of poll cycles, each with its receiver and the resource entries
    enumerated at that time. *)
Definition pollCycles (cycles : list (Receiver * list (ResourceTiming.t num)))
  (w : World num) : World num :=
  fold_left
    (fun w cycle => execute (pollResourceTimingEntries (fst cycle) (snd cycle)) w)
    cycles w.

(** The navigation-timing effect on the root span. *)
Definition navigationCalls (root : SpanId) (entry : NavigationTiming.t num)
  : list (TracerCall num) :=
  [ SetAttributes root (navigationAttributes entry);
    EndSpan root (Some (NavigationTiming.domContentLoadedEventEnd entry)) ].

(** Calls that set attributes on [root] or end it at a given time. *)
Definition isNavigationCall (root : SpanId) (c : TracerCall num) : bool :=
  match c with
  | SetAttributes span _ => Nat.eqb span root
  | EndSpan span (Some _) => Nat.eqb span root
  | _ => false
  end.

Definition navigationEntryOf (ev : Event num) : option (NavigationTiming.t num) :=
  match ev with
  | EvFCPReport metric =>
      FCPMetricWithAttribution.navigationEntry
        (FCPMetricWithAttribution.attribution metric)
  | _ => None
  end.

(** The navigation entry of the first event that carries one. *)
Fixpoint firstNavigationEntry (evs : list (Event num))
  : option (NavigationTiming.t num) :=
  match evs with
  | [] => None
  | ev :: rest =>
      match navigationEntryOf ev with
      | Some entry => Some entry
      | None => firstNavigationEntry rest
      end
  end.

Definition isVisibilityChange (ev : Event num) : bool :=
  match ev with
  | EvVisibilityChange _ _ => true
  | _ => false
  end.

(** The visibility listener run over a sequence of changes. *)
Definition visibilityChanges (changes : list (string * num)) (w : World num)
  : World num :=
  fold_left (fun w change => execute (onVisibilityChange (fst change) (snd change)) w)
    changes w.

End Readings.

(** Concrete inputs for the examples. *)
Definition ignoringApi (hasPO : bool) : World Z :=
  construct (Some ["/api/"]) (Host.initial Z hasPO).

Definition apiAndStatic : list (ResourceTiming.t Z) :=
  [ sampleResource "https://x/api/foo" 3%Z 4%Z;
    sampleResource "https://x/static/bar.js" 10%Z 5%Z ].

Definition firstPaintAt1500 : PerformanceEntry.t Z :=
  PerformanceEntry.mk "first-contentful-paint" "paint" 1500%Z 0%Z.

Definition navigationReportAt120 : FCPMetricWithAttribution.t Z :=
  fcpReport None (Some (sampleNavigation 120%Z)).


(* ===================================================================== *)
(** ** A tracer behind the calls *)
(* ===================================================================== *)

(** Modelled from the spec: the tracer client ([startRootSpan],
    [startNestedSpan], [span.setAttributes], [span.end] of section 6), whose
    code is [./generateTraces] and the span objects of the tracing library,
    neither among the sources.  A span keeps the name, parent, attributes and
    start time it was started with and the end time it was given.  The spec
    leaves open what [end] does to a span that has ended already
    (section 3: setting the end time twice is undefined); [EndAgain] lists
    the behaviours a tracer may have. *)
Inductive EndAgain :=
| KeepsFirstEnd
| TakesLastEnd
| ThrowsOnSecondEnd.

Inductive EndTime (num : Type) :=
| EndAt (t : num)
| EndAtCallTime.
Arguments EndAtCallTime {num}.

Module Span.
Record t (num : Type) := mk {
  name : string;
  parent : option SpanId;
  attributes : Attributes num;
  startTime : num;
  endTime : option (EndTime num)
}.
End Span.

Section Tracer.
Context {num : Type}.

Definition endTimeOf (endTime : option num) : EndTime num :=
  match endTime with Some t => EndAt t | None => EndAtCallTime end.

Definition withEnd (e : EndTime num) (s : Span.t num) : Span.t num :=
  {| Span.name := Span.name s; Span.parent := Span.parent s;
     Span.attributes := Span.attributes s; Span.startTime := Span.startTime s;
     Span.endTime := Some e |}.

Definition withAttributes (attrs : Attributes num) (s : Span.t num) : Span.t num :=
  {| Span.name := Span.name s; Span.parent := Span.parent s;
     Span.attributes := (Span.attributes s ++ attrs)%list;
     Span.startTime := Span.startTime s;
     Span.endTime := Span.endTime s |}.

(** One call acting on the spans; [None] when the tracer throws. *)
Definition tracerStep (policy : EndAgain) (spans : gmap SpanId (Span.t num))
  (c : TracerCall num) : option (gmap SpanId (Span.t num)) :=
  match c with
  | StartRootSpan span name attrs startTime =>
      Some (<[span := Span.mk name None attrs startTime None]> spans)
  | StartNestedSpan span name parent attrs startTime =>
      Some (<[span := Span.mk name (Some parent) attrs startTime None]> spans)
  | SetAttributes span attrs =>
      Some (alter (withAttributes attrs) span spans)
  | EndSpan span endTime =>
      match spans !! span with
      | None => Some spans
      | Some s =>
          match Span.endTime s, policy with
          | None, _ => Some (<[span := withEnd (endTimeOf endTime) s]> spans)
          | Some _, KeepsFirstEnd => Some spans
          | Some _, TakesLastEnd => Some (<[span := withEnd (endTimeOf endTime) s]> spans)
          | Some _, ThrowsOnSecondEnd => None
          end
      end
  end.

Fixpoint tracerRun (policy : EndAgain) (spans : gmap SpanId (Span.t num))
  (calls : list (TracerCall num)) : option (gmap SpanId (Span.t num)) :=
  match calls with
  | [] => Some spans
  | c :: rest =>
      match tracerStep policy spans c with
      | Some spans' => tracerRun policy spans' rest
      | None => None
      end
  end.

(** The spans a tracer holds after the calls of a world's log. *)
Definition spansOf (policy : EndAgain) (w : World num)
  : option (gmap SpanId (Span.t num)) :=
  tracerRun policy ∅ (Host.tracerCalls (host w)).


(** A span that is a marker at time [t]: it starts and ends there. *)
Definition pointMarkerAt (t : num) (s : Span.t num) : Prop :=
  Span.startTime s = t /\ Span.endTime s = Some (EndAt t).

End Tracer.

(* ===================================================================== *)
(** ** The events as transitions *)
(* ===================================================================== *)

Section Transitions.
Context {num : Type} `{JsNumber num}.

(** [init()]: an empty body. *)
Definition init : Js num unit := ret tt.

(** The attributes of a content-paint span. *)
Definition lcpAttributes (doc : Document) (entry : LargestContentfulPaint.t num)
  (pageHiddenFor : num) : Attributes num :=
  [ ("url", AttrString (LargestContentfulPaint.url entry));
    ("renderTime", AttrNumber (LargestContentfulPaint.renderTime entry));
    ("element",
       AttrString (getElementName doc (LargestContentfulPaint.element entry) 0));
    ("entryType", AttrString (LargestContentfulPaint.entryType entry));
    ("loadTime", AttrNumber (LargestContentfulPaint.loadTime entry));
    ("pageHiddenFor", AttrNumber pageHiddenFor) ].

(** The tracer calls an event causes in a world. *)
Definition callsOf (ev : Event num) (w : World num) : list (TracerCall num) :=
  let root := Instance.rootSpan (self w) in
  let span := Host.nextSpanId (host w) in
  match ev with
  | EvEnable resources =>
      if Host.hasPerformanceObserver (host w) then []
      else resourceSpansFrom root span
             (freshEntries (Instance.resourceEntriesSet (self w))
                (getResourcesToTrack (self w) resources))
  | EvDisable => [EndSpan root None]
  | EvVisibilityChange _ _ => []
  | EvLCPReport doc metric =>
      match LCPMetricWithAttribution.lcpEntry
              (LCPMetricWithAttribution.attribution metric) with
      | Some entry =>
          [ StartNestedSpan span
              (kebabToScreamingSnakeCase (LargestContentfulPaint.entryType entry))
              root (lcpAttributes doc entry (Instance.pageHiddenFor (self w)))
              num_zero;
            EndSpan span (Some (LargestContentfulPaint.startTime entry)) ]
      | None => []
      end
  | EvFCPReport metric =>
      match FCPMetricWithAttribution.navigationEntry
              (FCPMetricWithAttribution.attribution metric) with
      | Some entry =>
          if Instance.wasNavigationEntryPushed (self w) then []
          else navigationCalls root entry
      | None => []
      end ++
      match FCPMetricWithAttribution.fcpEntry
              (FCPMetricWithAttribution.attribution metric) with
      | Some entry =>
          [ StartNestedSpan span
              (kebabToScreamingSnakeCase (PerformanceEntry.name entry))
              root [] num_zero;
            EndSpan span (Some (PerformanceEntry.startTime entry)) ]
      | None => []
      end
  | EvObserverEntries o entries =>
      if bool_decide (o ∈ Host.observing (host w))
      then resourceSpansFrom root span (getResourcesToTrack (self w) entries)
      else []
  | EvTimer _ _ => []
  end.

(** The number of spans those calls start. *)
Definition spansOfEvent (ev : Event num) (w : World num) : nat :=
  match ev with
  | EvEnable resources =>
      if Host.hasPerformanceObserver (host w) then 0
      else length (freshEntries (Instance.resourceEntriesSet (self w))
                     (getResourcesToTrack (self w) resources))
  | EvLCPReport _ metric =>
      match LCPMetricWithAttribution.lcpEntry
              (LCPMetricWithAttribution.attribution metric) with
      | Some _ => 1
      | None => 0
      end
  | EvFCPReport metric =>
      match FCPMetricWithAttribution.fcpEntry
              (FCPMetricWithAttribution.attribution metric) with
      | Some _ => 1
      | None => 0
      end
  | EvObserverEntries o entries =>
      if bool_decide (o ∈ Host.observing (host w))
      then length (getResourcesToTrack (self w) entries)
      else 0
  | _ => 0
  end.

(** The fields of the instance after an event. *)
Definition selfAfter (ev : Event num) (w : World num) : Instance.t num :=
  match ev with
  | EvEnable resources =>
      if Host.hasPerformanceObserver (host w)
      then set_resourceTimingObserver (Some (Host.nextObserverId (host w))) (self w)
      else set_resourceEntryPollTimeout (Some (Host.nextTimerId (host w)))
             (set_resourceEntriesSet
                (keysOf (getResourcesToTrack (self w) resources)
                 ∪ Instance.resourceEntriesSet (self w)) (self w))
  | EvVisibilityChange visibilityState now =>
      if String.eqb visibilityState "hidden"
      then set_pageLastHiddenAt now (self w)
      else set_pageHiddenFor (num_sub now (Instance.pageLastHiddenAt (self w))) (self w)
  | EvFCPReport metric =>
      match FCPMetricWithAttribution.navigationEntry
              (FCPMetricWithAttribution.attribution metric) with
      | Some _ =>
          if Instance.wasNavigationEntryPushed (self w) then self w
          else set_wasNavigationEntryPushed true (self w)
      | None => self w
      end
  | _ => self w
  end.

(** The timers, observers and subscriptions of the host after an event. *)
Definition timersAfter (ev : Event num) (w : World num) : gmap TimerId TimerTask :=
  match ev with
  | EvEnable _ =>
      if Host.hasPerformanceObserver (host w) then Host.pendingTimers (host w)
      else <[Host.nextTimerId (host w)
               := mkTimerTask UnboundPollResourceTimingEntries 5000]>
             (timersAfterClear w)
  | EvTimer timer _ => delete timer (Host.pendingTimers (host w))
  | _ => Host.pendingTimers (host w)
  end.

Definition nextTimerAfter (ev : Event num) (w : World num) : TimerId :=
  match ev with
  | EvEnable _ =>
      if Host.hasPerformanceObserver (host w) then Host.nextTimerId (host w)
      else N.succ (Host.nextTimerId (host w))
  | _ => Host.nextTimerId (host w)
  end.

Definition observingAfter (ev : Event num) (w : World num) : gset ObserverId :=
  match ev with
  | EvEnable _ =>
      if Host.hasPerformanceObserver (host w)
      then {[Host.nextObserverId (host w)]} ∪ Host.observing (host w)
      else Host.observing (host w)
  | EvDisable =>
      match Instance.resourceTimingObserver (self w) with
      | Some o => Host.observing (host w) ∖ {[o]}
      | None => Host.observing (host w)
      end
  | _ => Host.observing (host w)
  end.

Definition nextObserverAfter (ev : Event num) (w : World num) : ObserverId :=
  match ev with
  | EvEnable _ =>
      if Host.hasPerformanceObserver (host w) then S (Host.nextObserverId (host w))
      else Host.nextObserverId (host w)
  | _ => Host.nextObserverId (host w)
  end.

Definition subscriptionsAfter (ev : Event num) (w : World num) : list Subscription :=
  match ev with
  | EvEnable _ =>
      Host.subscriptions (host w)
      ++ [SubVisibilityChange; SubLCP true; SubFCP true]
  | _ => Host.subscriptions (host w)
  end.

(** The world after an event, field by field. *)
Definition transition (ev : Event num) (w : World num) : World num :=
  {| self := selfAfter ev w;
     host :=
       {| Host.tracerCalls := Host.tracerCalls (host w) ++ callsOf ev w;
          Host.nextSpanId := spansOfEvent ev w + Host.nextSpanId (host w);
          Host.pendingTimers := timersAfter ev w;
          Host.nextTimerId := nextTimerAfter ev w;
          Host.observing := observingAfter ev w;
          Host.nextObserverId := nextObserverAfter ev w;
          Host.subscriptions := subscriptionsAfter ev w;
          Host.hasPerformanceObserver := Host.hasPerformanceObserver (host w) |} |}.

Definition isEnable (ev : Event num) : bool :=
  match ev with
  | EvEnable _ => true
  | _ => false
  end.

Definition isDisable (ev : Event num) : bool :=
  match ev with
  | EvDisable => true
  | _ => false
  end.

(** Calls that end the span [span]. *)
Definition isEndOf (span : SpanId) (c : TracerCall num) : bool :=
  match c with
  | EndSpan s _ => Nat.eqb s span
  | _ => false
  end.

(** The handle a call starts a span under. *)
Definition startedSpan (c : TracerCall num) : option SpanId :=
  match c with
  | StartRootSpan s _ _ _ => Some s
  | StartNestedSpan s _ _ _ _ => Some s
  | _ => None
  end.

(** The shape of a log.  It opens with the start of the root span; the
    handle of a nested span is the number of spans started before it. *)
Inductive Trace (root : SpanId) : SpanId -> list (TracerCall num) -> Prop :=
| Trace_root (name : string) (attrs : Attributes num) (startTime : num) :
    Trace root (S root) [StartRootSpan root name attrs startTime]
| Trace_nested (next : SpanId) (log : list (TracerCall num))
    (name : string) (attrs : Attributes num) (startTime endTime : num) :
    Trace root next log ->
    Trace root (S next)
      (log ++ [ StartNestedSpan next name root attrs startTime;
                EndSpan next (Some endTime) ])
| Trace_navigation (next : SpanId) (log : list (TracerCall num))
    (attrs : Attributes num) (endTime : num) :
    Trace root next log ->
    Trace root next (log ++ [SetAttributes root attrs; EndSpan root (Some endTime)])
| Trace_shutdown (next : SpanId) (log : list (TracerCall num)) :
    Trace root next log ->
    Trace root next (log ++ [EndSpan root None]).


(** The state the polling strategy leaves untouched, and the state the
    observing strategy leaves untouched. *)
Definition neverPolled (w : World num) : Prop :=
  Host.pendingTimers (host w) = ∅ /\
  Instance.resourceEntryPollTimeout (self w) = None /\
  Instance.resourceEntriesSet (self w) = ∅.

Definition neverObserved (w : World num) : Prop :=
  Host.observing (host w) = ∅ /\
  Instance.resourceTimingObserver (self w) = None /\
  Host.nextObserverId (host w) = 0.

(** The resource entries an event turns into spans. *)
Definition convertedBy (ev : Event num) (w : World num)
  : list (ResourceTiming.t num) :=
  match ev with
  | EvEnable resources =>
      if Host.hasPerformanceObserver (host w) then []
      else freshEntries (Instance.resourceEntriesSet (self w))
             (getResourcesToTrack (self w) resources)
  | EvObserverEntries o entries =>
      if bool_decide (o ∈ Host.observing (host w))
      then getResourcesToTrack (self w) entries
      else []
  | _ => []
  end.

(** No observer connected, and the resource spans and dedup set as given. *)
Definition quietAt (keys : list string) (seen : gset string) (w : World num) : Prop :=
  Host.observing (host w) = ∅ /\
  omap resourceSpanKey (tracerLog w) = keys /\
  Instance.resourceEntriesSet (self w) = seen.


(** Text of ASCII characters only, on which [JsString.toUpperCase] is
    the method of the language. *)
Definition asciiText (s : string) : bool :=
  forallb (fun c => (N_of_ascii c <? 128)%N) (list_ascii_of_string s).

(** Observer [o] was created and is connected. *)
Definition connected (o : ObserverId) (w : World num) : Prop :=
  o ∈ Host.observing (host w) /\ o < Host.nextObserverId (host w).

(** Observer [o] is connected, and the instance holds another one. *)
Definition orphaned (o : ObserverId) (w : World num) : Prop :=
  connected o w /\
  exists held, Instance.resourceTimingObserver (self w) = Some held /\ held <> o.


(** The times of the changes to hidden among the events. *)
Definition hiddenTimes (evs : list (Event num)) : list num :=
  omap (fun ev =>
          match ev with
          | EvVisibilityChange state now =>
              if String.eqb state "hidden" then Some now else None
          | _ => None
          end) evs.

(** The hidden duration that events leave, latest event first: the one of
    the latest change to a visible state. *)
Fixpoint hiddenForOf (latestFirst : list (Event num)) : num :=
  match latestFirst with
  | [] => num_zero
  | EvVisibilityChange state now :: earlier =>
      if String.eqb state "hidden" then hiddenForOf earlier
      else num_sub now (List.last (hiddenTimes (rev earlier)) num_zero)
  | _ :: earlier => hiddenForOf earlier
  end.

(** A string without a colon. *)
Definition colonFree (s : string) : bool := negb (JsString.includes s ":").

End Transitions.

(* ===================================================================== *)
(** * Properties *)
(* ===================================================================== *)

Unset Implicit Arguments.

(** The straight-line operations, unfolded on demand. *)
Create HintDb js_ops.
#[export] Hint Unfold
  ret bind throw getSelf modifySelf getHost modifyHost execute completion
  startRootSpan startNestedSpan setAttributes endSpan
  setTimeout clearInterval newPerformanceObserver observe disconnect
  logCall allocSpan emit withTimers withObservers subscribe : js_ops.

Ltac js_compute := autounfold with js_ops; cbn.

(** ** Strings *)

Lemma append_String (x : ascii) (a b : string) :
  String x a +:+ b = String x (a +:+ b).
Proof. reflexivity. Qed.

Lemma append_empty_l (a : string) : "" +:+ a = a.
Proof. reflexivity. Qed.

Lemma append_assoc (a b c : string) : (a +:+ b) +:+ c = a +:+ (b +:+ c).
Proof.
  induction a as [|x a IH]; rewrite ?append_String, ?append_empty_l; [reflexivity | now rewrite IH].
Qed.

Lemma append_empty_r (a : string) : a +:+ "" = a.
Proof.
  induction a as [|x a IH]; rewrite ?append_String, ?append_empty_l; [reflexivity | now rewrite IH].
Qed.

Lemma prefix_append (p s : string) : String.prefix p (p +:+ s) = true.
Proof.
  induction p as [|x p IH]; rewrite ?append_String, ?append_empty_l; simpl; [now destruct s |].
  destruct (ascii_dec x x); [exact IH | congruence].
Qed.

Lemma prefix_inv (p s : string) :
  String.prefix p s = true -> exists rest, s = p +:+ rest.
Proof.
  revert s; induction p as [|x p IH]; intros s Hp.
  - exists s; reflexivity.
  - destruct s as [|y s]; simpl in Hp; [discriminate |].
    destruct (ascii_dec x y) as [->|]; [| discriminate].
    destruct (IH _ Hp) as [rest ->]. exists rest; reflexivity.
Qed.

(** ** [getElementName] *)










(** An element nested 10 ancestors deep: the label names the element and
    its first three ancestors only. *)
Example getElementName_ten_deep :
  getElementName (chainDocument 10) (Some 0%nat) 0
  = " > DIV#3:null > DIV#2:null > DIV#1:null > DIV#0:null".
Proof. reflexivity. Qed.

Example getElementName_on_cycle :
  getElementName loopDocument (Some 7%nat) 0
  = " > P.a.b:t > P.a.b:t > P.a.b:t > P.a.b:t".
Proof. reflexivity. Qed.



(** ** The visibility listener *)

Section VisibilityProperties.
Context {num : Type} `{JsNumber num}.

Lemma onVisibilityChange_hidden (now : num) (w : World num) :
  execute (onVisibilityChange "hidden" now) w
  = {| self := set_pageLastHiddenAt now (self w); host := host w |}.
Proof. reflexivity. Qed.

Lemma onVisibilityChange_shown (state : string) (now : num) (w : World num) :
  state <> "hidden" ->
  execute (onVisibilityChange state now) w
  = {| self := set_pageHiddenFor (num_sub now (Instance.pageLastHiddenAt (self w)))
                 (self w);
       host := host w |}.
Proof.
  intros Hstate. unfold onVisibilityChange.
  destruct (String.eqb_spec state "hidden") as [Heq | _]; [contradiction | reflexivity].
Qed.

End VisibilityProperties.

(** ** What the span-producing methods do to the world *)

Section Effects.
Context {num : Type} `{JsNumber num}.

Lemma emit_nothing (h : Host.t num) : emit [] 0 h = h.
Proof. destruct h. unfold emit. cbn. now rewrite app_nil_r. Qed.

Lemma emit_emit (c1 c2 : list (TracerCall num)) (n1 n2 : nat) (h : Host.t num) :
  emit c2 n2 (emit c1 n1 h) = emit (c1 ++ c2) (n1 + n2) h.
Proof.
  unfold emit. cbn. rewrite <- app_assoc. f_equal. lia.
Qed.

Lemma pushResourceTimingToSpan_effect (entry : ResourceTiming.t num) (w : World num) :
  pushResourceTimingToSpan entry w
  = (Normal tt,
     {| self := self w;
        host := emit (resourceSpanCalls (Instance.rootSpan (self w))
                        (Host.nextSpanId (host w)) entry) 1 (host w) |}).
Proof.
  unfold pushResourceTimingToSpan, resourceSpanCalls. js_compute.
  now rewrite <- app_assoc.
Qed.

Lemma forEach_pushResourceTimingToSpan
  (entries : list (ResourceTiming.t num)) (w : World num) :
  forEach entries pushResourceTimingToSpan w
  = (Normal tt,
     {| self := self w;
        host := emit (resourceSpansFrom (Instance.rootSpan (self w))
                        (Host.nextSpanId (host w)) entries)
                  (length entries) (host w) |}).
Proof.
  revert w; induction entries as [|entry rest IH]; intros w.
  - cbn. rewrite emit_nothing. now destruct w.
  - cbn [forEach]. unfold bind at 1. rewrite pushResourceTimingToSpan_effect.
    rewrite IH. cbn [self host]. rewrite emit_emit.
    cbn [resourceSpansFrom length]. reflexivity.
Qed.

Lemma keysOf_cons (entry : ResourceTiming.t num) (rest : list (ResourceTiming.t num)) :
  keysOf (entry :: rest) = {[getResourceEntryKey entry]} ∪ keysOf rest.
Proof. reflexivity. Qed.

(** The loop of a poll cycle: spans for the entries with a key not seen
    before, and every key of the list recorded. *)
Lemma forEach_poll (entries : list (ResourceTiming.t num)) (w : World num) :
  forEach entries (fun entry =>
    let key := getResourceEntryKey entry in
    s <- getSelf ;;
    if negb (bool_decide (key ∈ Instance.resourceEntriesSet s)) then
      pushResourceTimingToSpan entry ;;;
      modifySelf (fun s =>
        set_resourceEntriesSet ({[key]} ∪ Instance.resourceEntriesSet s) s)
    else ret tt) w
  = (Normal tt,
     {| self := set_resourceEntriesSet
                  (keysOf entries ∪ Instance.resourceEntriesSet (self w)) (self w);
        host := emit (resourceSpansFrom (Instance.rootSpan (self w))
                        (Host.nextSpanId (host w))
                        (freshEntries (Instance.resourceEntriesSet (self w)) entries))
                  (length (freshEntries (Instance.resourceEntriesSet (self w)) entries))
                  (host w) |}).
Proof.
  revert w; induction entries as [|entry rest IH]; intros w.
  - cbn [forEach freshEntries resourceSpansFrom length]. rewrite emit_nothing.
    unfold ret. f_equal. destruct w as [s h]; cbn [self host]. f_equal.
    destruct s; unfold set_resourceEntriesSet; cbn. f_equal.
    unfold keysOf; cbn. set_solver.
  - cbn [forEach freshEntries]. unfold bind at 1. cbv beta zeta.
    unfold bind at 1. unfold getSelf at 1. cbv beta iota.
    destruct (bool_decide (getResourceEntryKey entry ∈ Instance.resourceEntriesSet (self w)))
      eqn:Hseen; cbn [negb].
    + apply bool_decide_eq_true in Hseen.
      unfold ret at 1. rewrite IH. do 2 f_equal.
      destruct w as [s h]; cbn [self host] in *.
      destruct s; unfold set_resourceEntriesSet; cbn in *. f_equal.
      clear IH. unfold keysOf. set_solver.
    + unfold bind at 1. rewrite pushResourceTimingToSpan_effect.
      unfold modifySelf at 1. cbv beta iota. cbn [self host].
      rewrite IH. cbn [self host]. rewrite emit_emit.
      cbn [resourceSpansFrom length]. f_equal.
      destruct w as [s h]; cbn [self host] in *.
      destruct s; unfold set_resourceEntriesSet; cbn in *. f_equal.
      f_equal. clear IH. unfold keysOf. set_solver.
Qed.


Lemma pollResourceTimingEntries_instance
  (resources : list (ResourceTiming.t num)) (w : World num) :
  pollResourceTimingEntries ThisInstance resources w
  = (Normal tt, afterPoll resources w).
Proof.
  unfold pollResourceTimingEntries, afterPoll, timersAfterClear.
  unfold bind at 1. unfold getSelf at 1. cbv beta iota.
  unfold bind at 1.
  destruct (Instance.resourceEntryPollTimeout (self w)) as [timer|] eqn:Hold;
    cbn [timerTruthy].
  - destruct (timer =? 0)%N; cbn [negb].
    + unfold ret at 1. unfold bind at 1. rewrite forEach_poll.
      cbn. reflexivity.
    + unfold clearInterval, modifyHost. unfold bind at 1.
      cbv beta iota. rewrite forEach_poll. cbn. reflexivity.
  - unfold ret at 1. unfold bind at 1. rewrite forEach_poll. cbn. reflexivity.
Qed.

Lemma pollResourceTimingEntries_host
  (resources : list (ResourceTiming.t num)) (w : World num) :
  pollResourceTimingEntries ThisOfHost resources w
  = (Throw (TypeError "this.getResourcesToTrack is not a function"), w).
Proof. reflexivity. Qed.

End Effects.

(** ** Poll cycles and the dedup set *)

Section Dedup.
Context {num : Type} `{JsNumber num}.

Lemma resourceSpanKey_resourceSpansFrom (root : SpanId)
  (entries : list (ResourceTiming.t num)) :
  forall span,
    omap resourceSpanKey (resourceSpansFrom root span entries)
    = map getResourceEntryKey entries.
Proof.
  induction entries as [|entry rest IH]; intros span; [reflexivity |].
  cbn [resourceSpansFrom resourceSpanCalls app map].
  rewrite <- (IH (S span)). reflexivity.
Qed.

Lemma freshEntries_keys (entries : list (ResourceTiming.t num)) :
  forall seen : gset string,
    NoDup (map getResourceEntryKey (freshEntries seen entries)) /\
    forall k, k ∈ map getResourceEntryKey (freshEntries seen entries) ->
              (k ∉ seen) /\ (k ∈ keysOf entries).
Proof.
  induction entries as [|entry rest IH]; intros seen.
  - split; [constructor | intros k Hk; cbn in Hk; inversion Hk].
  - cbn [freshEntries]. rewrite keysOf_cons.
    destruct (bool_decide (getResourceEntryKey entry ∈ seen)) eqn:Hseen.
    + destruct (IH seen) as [Hnd Hin]. split; [exact Hnd |].
      intros k Hk. destruct (Hin k Hk). split; [assumption | set_solver].
    + apply bool_decide_eq_false in Hseen.
      destruct (IH ({[getResourceEntryKey entry]} ∪ seen)) as [Hnd Hin].
      cbn [map]. split.
      * constructor; [| exact Hnd].
        intros Hdup. apply Hin in Hdup. set_solver.
      * intros k Hk. apply elem_of_cons in Hk as [-> | Hk].
        -- split; [assumption | set_solver].
        -- destruct (Hin k Hk). split; set_solver.
Qed.

Lemma freshEntries_all_seen (entries : list (ResourceTiming.t num)) (seen : gset string) :
  keysOf entries ⊆ seen -> freshEntries seen entries = [].
Proof.
  induction entries as [|entry rest IH]; intros Hsub; [reflexivity |].
  rewrite keysOf_cons in Hsub. cbn [freshEntries].
  rewrite bool_decide_eq_true_2 by set_solver.
  apply IH. set_solver.
Qed.

Lemma dedupCovers_construct (urls : option (list string)) (hasPO : bool) :
  dedupCovers (construct urls (Host.initial num hasPO)).
Proof.
  split; cbn; [constructor | intros k Hk; inversion Hk].
Qed.

Lemma dedupCovers_poll (this : Receiver)
  (resources : list (ResourceTiming.t num)) (w : World num) :
  dedupCovers w ->
  dedupCovers (execute (pollResourceTimingEntries this resources) w).
Proof.
  intros [Hnd Hcov]. destruct this.
  - unfold execute. rewrite pollResourceTimingEntries_instance.
    unfold dedupCovers, tracerLog, afterPoll. cbn.
    rewrite omap_app, resourceSpanKey_resourceSpansFrom.
    destruct (freshEntries_keys (getResourcesToTrack (self w) resources)
                (Instance.resourceEntriesSet (self w))) as [Hfresh Hin].
    split.
    + apply NoDup_app. split; [exact Hnd |]. split; [| exact Hfresh].
      intros k Hk Hk'. apply Hin in Hk' as [Hnot _]. apply Hnot, Hcov, Hk.
    + intros k Hk. apply elem_of_app in Hk as [Hk | Hk].
      * apply Hcov in Hk. set_solver.
      * apply Hin in Hk as [_ Hk]. set_solver.
  - exact (conj Hnd Hcov).
Qed.

Lemma dedupCovers_pollCycles
  (cycles : list (Receiver * list (ResourceTiming.t num))) :
  forall w, dedupCovers w -> dedupCovers (pollCycles cycles w).
Proof.
  induction cycles as [|[this resources] rest IH]; intros w Hw; [exact Hw |].
  cbn [pollCycles fold_left]. apply IH. now apply dedupCovers_poll.
Qed.

Lemma pollCycles_app (xs ys : list (Receiver * list (ResourceTiming.t num)))
  (w : World num) :
  pollCycles (xs ++ ys) w = pollCycles ys (pollCycles xs w).
Proof. apply fold_left_app. Qed.

Lemma poll_again_adds_nothing (this : Receiver)
  (resources : list (ResourceTiming.t num)) (w : World num) :
  tracerLog (pollCycles [(ThisInstance, resources); (this, resources)] w)
  = tracerLog (pollCycles [(ThisInstance, resources)] w).
Proof.
  cbn [pollCycles fold_left fst snd]. unfold execute at 2 3.
  rewrite pollResourceTimingEntries_instance. cbn [snd].
  destruct this; [| reflexivity].
  unfold execute. rewrite pollResourceTimingEntries_instance. cbn [snd].
  unfold tracerLog. unfold afterPoll at 1. cbn [host Host.tracerCalls withTimers emit].
  rewrite freshEntries_all_seen; [cbn; apply app_nil_r |].
  unfold afterPoll. cbn. set_solver.
Qed.

End Dedup.

(** ** Filtering by the ignore list *)

Lemma includes_step (s sub : string) :
  JsString.includes s sub
  = String.prefix sub s ||
    match s with
    | EmptyString => false
    | String _ rest => JsString.includes rest sub
    end.
Proof. destruct s; reflexivity. Qed.

Lemma includes_contains (s sub : string) :
  JsString.includes s sub = true <-> JsString.contains s sub.
Proof.
  split.
  - induction s as [|c s IH]; rewrite includes_step; intros Hinc;
      apply orb_true_iff in Hinc as [Hpre | Hrest]; try discriminate.
    + apply prefix_inv in Hpre as [rest ->]. exists "", rest. reflexivity.
    + apply prefix_inv in Hpre as [rest ->]. exists "", rest. reflexivity.
    + destruct (IH Hrest) as (pre & post & ->).
      exists (String c pre), post. reflexivity.
  - intros (pre & post & ->). induction pre as [|c pre IH].
    + rewrite append_empty_l, includes_step, prefix_append. reflexivity.
    + rewrite append_String, includes_step, IH. apply orb_true_r.
Qed.

Section Filtering.
Context {num : Type} `{JsNumber num}.

Lemma getResourcesToTrack_In (s : Instance.t num)
  (resources : list (ResourceTiming.t num)) (entry : ResourceTiming.t num) :
  In entry (getResourcesToTrack s resources) <->
  In entry resources /\
  forall ignoreUrl, In ignoreUrl (Instance.ignoreResourceUrls s) ->
                    ~ JsString.contains (ResourceTiming.name entry) ignoreUrl.
Proof.
  unfold getResourcesToTrack. rewrite filter_In, negb_true_iff.
  split; intros [Hin Hkeep]; (split; [exact Hin |]).
  - intros ignoreUrl Hurl Hcontains.
    apply includes_contains in Hcontains.
    enough (existsb (fun u => JsString.includes (ResourceTiming.name entry) u)
              (Instance.ignoreResourceUrls s) = true) by congruence.
    apply existsb_exists. now exists ignoreUrl.
  - destruct (existsb _ _) eqn:Hex; [| reflexivity].
    apply existsb_exists in Hex as (ignoreUrl & Hurl & Hinc).
    apply includes_contains in Hinc. now destruct (Hkeep ignoreUrl Hurl).
Qed.

Lemma getResourcesToTrack_idempotent (s : Instance.t num)
  (resources : list (ResourceTiming.t num)) :
  getResourcesToTrack s (getResourcesToTrack s resources)
  = getResourcesToTrack s resources.
Proof.
  unfold getResourcesToTrack. induction resources as [|entry rest IH]; [reflexivity |].
  cbn [List.filter].
  destruct (negb (existsb _ (Instance.ignoreResourceUrls s))) eqn:Hkeep.
  - cbn [List.filter]. rewrite Hkeep. now f_equal.
  - exact IH.
Qed.

Lemma resourceTimingObserverCallback_effect
  (entries : list (ResourceTiming.t num)) (w : World num) :
  resourceTimingObserverCallback entries w
  = (Normal tt,
     {| self := self w;
        host := emit (resourceSpansFrom (Instance.rootSpan (self w))
                        (Host.nextSpanId (host w))
                        (getResourcesToTrack (self w) entries))
                  (length (getResourcesToTrack (self w) entries)) (host w) |}).
Proof.
  unfold resourceTimingObserverCallback. unfold bind at 1. unfold getSelf.
  cbv beta iota. apply forEach_pushResourceTimingToSpan.
Qed.

(** C8.  The entries that survive [getResourcesToTrack] are exactly those
    of the input whose name contains none of the ignored substrings.  Both
    strategies see the input only through this filter: the observer callback
    makes a span of every survivor and of nothing else, and a poll cycle
    behaves on a list as it does on the survivors of that list, dedup set
    included. *)
Theorem ignored_resources_yield_no_span
  (resources : list (ResourceTiming.t num)) (w : World num) :
  (forall entry,
     In entry (getResourcesToTrack (self w) resources) <->
     In entry resources /\
     forall ignoreUrl, In ignoreUrl (Instance.ignoreResourceUrls (self w)) ->
                       ~ JsString.contains (ResourceTiming.name entry) ignoreUrl) /\
  tracerLog (execute (resourceTimingObserverCallback resources) w)
    = (tracerLog w ++
       resourceSpansFrom (Instance.rootSpan (self w)) (Host.nextSpanId (host w))
         (getResourcesToTrack (self w) resources))%list /\
  tracerLog (execute (pollResourceTimingEntries ThisInstance resources) w)
    = (tracerLog w ++
       resourceSpansFrom (Instance.rootSpan (self w)) (Host.nextSpanId (host w))
         (freshEntries (Instance.resourceEntriesSet (self w))
            (getResourcesToTrack (self w) resources)))%list /\
  Instance.resourceEntriesSet
      (self (execute (pollResourceTimingEntries ThisInstance resources) w))
    = keysOf (getResourcesToTrack (self w) resources)
      ∪ Instance.resourceEntriesSet (self w) /\
  resourceTimingObserverCallback resources w
    = resourceTimingObserverCallback (getResourcesToTrack (self w) resources) w /\
  pollResourceTimingEntries ThisInstance resources w
    = pollResourceTimingEntries ThisInstance (getResourcesToTrack (self w) resources) w.
Proof.
  split; [intros entry; apply getResourcesToTrack_In |].
  unfold execute.
  rewrite !resourceTimingObserverCallback_effect, !pollResourceTimingEntries_instance.
  unfold afterPoll, timersAfterClear.
  rewrite !getResourcesToTrack_idempotent. cbn. repeat split; reflexivity.
Qed.

End Filtering.

Lemma ignored_resources_yield_no_span_witness :
  In (sampleResource "https://x/static/bar.js" 10%Z 5%Z)
     (getResourcesToTrack (self (ignoringApi true)) apiAndStatic).
Proof.
  apply (proj1 (ignored_resources_yield_no_span apiAndStatic (ignoringApi true))).
  split; [right; left; reflexivity |].
  intros ignoreUrl [<- | []] Hcontains.
  apply includes_contains in Hcontains. discriminate Hcontains.
Defined.

(** With [ignoreResourceUrls = ["/api/"]], only the [static] entry yields
    a span, under either strategy. *)
Example ignore_api_observer :
  omap resourceSpanKey
    (tracerLog (execute (resourceTimingObserverCallback apiAndStatic)
                  (ignoringApi true)))
  = ["https://x/static/bar.js:10:resource"].
Proof. reflexivity. Qed.

Example ignore_api_poll :
  omap resourceSpanKey
    (tracerLog (execute (pollResourceTimingEntries ThisInstance apiAndStatic)
                  (ignoringApi false)))
  = ["https://x/static/bar.js:10:resource"].
Proof. reflexivity. Qed.

(** ** The spans made of entries *)

Section SpanShapes.
Context {num : Type} `{JsNumber num}.

Lemma resourceSpansFrom_indexed (root : SpanId)
  (entries : list (ResourceTiming.t num)) :
  forall span,
    resourceSpansFrom root span entries
    = concat (imap (fun i entry => resourceSpanCalls root (span + i) entry) entries).
Proof.
  induction entries as [|entry rest IH]; intros span; [reflexivity |].
  cbn [resourceSpansFrom imap concat]. rewrite Nat.add_0_r. f_equal.
  rewrite IH. f_equal. apply imap_ext. intros i e _. cbn.
  f_equal. lia.
Qed.

(** C6.  [pushResourceTimingToSpan] starts one nested span, named by the
    entry's name (the resource URL), with the root span as parent and the
    entry's [startTime] as start time, and ends that span at
    [startTime + responseEnd].  The observer callback does this for every
    entry it keeps, a poll cycle for every entry it keeps and has not seen,
    and neither makes any other tracer call. *)
Theorem resource_span_from_entry (entry : ResourceTiming.t num) (w : World num) :
  let root := Instance.rootSpan (self w) in
  let span := Host.nextSpanId (host w) in
  completion (pushResourceTimingToSpan entry) w = Normal tt /\
  tracerLog (execute (pushResourceTimingToSpan entry) w)
    = (tracerLog w ++
       [ StartNestedSpan span (ResourceTiming.name entry) root
           (resourceAttributes entry) (ResourceTiming.startTime entry);
         EndSpan span
           (Some (num_add (ResourceTiming.startTime entry)
                          (ResourceTiming.responseEnd entry))) ])%list /\
  (forall entries,
     tracerLog (execute (resourceTimingObserverCallback entries) w)
     = (tracerLog w ++
        concat (imap
          (fun i e =>
             [ StartNestedSpan (span + i) (ResourceTiming.name e) root
                 (resourceAttributes e) (ResourceTiming.startTime e);
               EndSpan (span + i)
                 (Some (num_add (ResourceTiming.startTime e)
                                (ResourceTiming.responseEnd e))) ])
          (getResourcesToTrack (self w) entries)))%list) /\
  (forall resources,
     tracerLog (execute (pollResourceTimingEntries ThisInstance resources) w)
     = (tracerLog w ++
        concat (imap
          (fun i e =>
             [ StartNestedSpan (span + i) (ResourceTiming.name e) root
                 (resourceAttributes e) (ResourceTiming.startTime e);
               EndSpan (span + i)
                 (Some (num_add (ResourceTiming.startTime e)
                                (ResourceTiming.responseEnd e))) ])
          (freshEntries (Instance.resourceEntriesSet (self w))
             (getResourcesToTrack (self w) resources))))%list).
Proof.
  intros root span. unfold execute, completion.
  rewrite pushResourceTimingToSpan_effect.
  split; [reflexivity |]. split; [reflexivity |]. split.
  - intros entries. rewrite resourceTimingObserverCallback_effect.
    cbn [snd]. unfold tracerLog. cbn [host emit Host.tracerCalls].
    now rewrite resourceSpansFrom_indexed.
  - intros resources. rewrite pollResourceTimingEntries_instance.
    cbn [snd]. unfold tracerLog, afterPoll.
    cbn [host emit withTimers Host.tracerCalls].
    now rewrite resourceSpansFrom_indexed.
Qed.

Lemma map_chars_map_chars (f g : ascii -> ascii) (s : string) :
  JsString.map_chars f (JsString.map_chars g s)
  = JsString.map_chars (fun c => f (g c)) s.
Proof. induction s as [|c s IH]; cbn; [reflexivity | now rewrite IH]. Qed.

Lemma map_chars_ext (f g : ascii -> ascii) (s : string) :
  (forall c, f c = g c) -> JsString.map_chars f s = JsString.map_chars g s.
Proof.
  intros Hfg. induction s as [|c s IH]; cbn; [reflexivity | now rewrite IH, Hfg].
Qed.

Lemma kebabToScreamingSnakeCase_chars (str : string) :
  kebabToScreamingSnakeCase str = JsString.map_chars screamingChar str.
Proof.
  unfold kebabToScreamingSnakeCase, JsString.toUpperCase, JsString.replace_all.
  rewrite map_chars_map_chars. apply map_chars_ext. intros c.
  unfold screamingChar. destruct (Ascii.eqb c "-"); reflexivity.
Qed.

Lemma pushPaintTimingToSpan_effect (entry : PerformanceEntry.t num) (w : World num) :
  pushPaintTimingToSpan entry w
  = (Normal tt,
     {| self := self w;
        host := emit
          [ StartNestedSpan (Host.nextSpanId (host w))
              (kebabToScreamingSnakeCase (PerformanceEntry.name entry))
              (Instance.rootSpan (self w)) [] num_zero;
            EndSpan (Host.nextSpanId (host w))
              (Some (PerformanceEntry.startTime entry)) ] 1 (host w) |}).
Proof.
  unfold pushPaintTimingToSpan. js_compute. now rewrite <- app_assoc.
Qed.

Lemma pushLcpTimingToSpan_effect (doc : Document)
  (entry : LargestContentfulPaint.t num) (w : World num) :
  pushLcpTimingToSpan doc entry w
  = (Normal tt,
     {| self := self w;
        host := emit
          [ StartNestedSpan (Host.nextSpanId (host w))
              (kebabToScreamingSnakeCase (LargestContentfulPaint.entryType entry))
              (Instance.rootSpan (self w))
              [ ("url", AttrString (LargestContentfulPaint.url entry));
                ("renderTime", AttrNumber (LargestContentfulPaint.renderTime entry));
                ("element",
                   AttrString
                     (getElementName doc (LargestContentfulPaint.element entry) 0));
                ("entryType", AttrString (LargestContentfulPaint.entryType entry));
                ("loadTime", AttrNumber (LargestContentfulPaint.loadTime entry));
                ("pageHiddenFor", AttrNumber (Instance.pageHiddenFor (self w))) ]
              num_zero;
            EndSpan (Host.nextSpanId (host w))
              (Some (LargestContentfulPaint.startTime entry)) ] 1 (host w) |}).
Proof.
  unfold pushLcpTimingToSpan. js_compute. now rewrite <- app_assoc.
Qed.

(** C7, as the code has it.  A paint entry yields a span named by the
    upper-snake-case form of its kebab-case identifier (the [name] of a
    first-paint entry, the [entryType] of a content-paint entry): every
    hyphen replaced by an underscore, every lower-case letter by its
    capital.  The span is started with start time 0 and ended at the
    entry's [startTime]. *)
Theorem paint_span_named_and_ended (doc : Document)
  (paint : PerformanceEntry.t num) (lcp : LargestContentfulPaint.t num)
  (w : World num) :
  let root := Instance.rootSpan (self w) in
  let span := Host.nextSpanId (host w) in
  tracerLog (execute (pushPaintTimingToSpan paint) w)
    = (tracerLog w ++
       [ StartNestedSpan span
           (kebabToScreamingSnakeCase (PerformanceEntry.name paint)) root [] num_zero;
         EndSpan span (Some (PerformanceEntry.startTime paint)) ])%list /\
  (exists attributes,
     tracerLog (execute (pushLcpTimingToSpan doc lcp) w)
     = (tracerLog w ++
        [ StartNestedSpan span
            (kebabToScreamingSnakeCase (LargestContentfulPaint.entryType lcp))
            root attributes num_zero;
          EndSpan span (Some (LargestContentfulPaint.startTime lcp)) ])%list) /\
  (forall str,
     kebabToScreamingSnakeCase str = JsString.map_chars screamingChar str) /\
  kebabToScreamingSnakeCase "largest-contentful-paint" = "LARGEST_CONTENTFUL_PAINT" /\
  kebabToScreamingSnakeCase "first-contentful-paint" = "FIRST_CONTENTFUL_PAINT".
Proof.
  intros root span. unfold execute.
  rewrite pushPaintTimingToSpan_effect, pushLcpTimingToSpan_effect.
  split; [reflexivity |]. split; [eexists; reflexivity |].
  split; [apply kebabToScreamingSnakeCase_chars |]. split; reflexivity.
Qed.

End SpanShapes.

(** The first-contentful-paint entry at 1500 ms gives a span from 0 to
    1500, not a marker at 1500. *)
Lemma paint_span_is_not_a_point_marker :
  exists s,
    (spans ← spansOf KeepsFirstEnd
               (execute (pushPaintTimingToSpan firstPaintAt1500)
                  (construct None (Host.initial Z true)));
     spans !! 1%nat) = Some s /\
    Span.name s = "FIRST_CONTENTFUL_PAINT" /\
    Span.startTime s = 0%Z /\
    Span.endTime s = Some (EndAt 1500%Z) /\
    ~ pointMarkerAt (PerformanceEntry.startTime firstPaintAt1500) s.
Proof.
  eexists. split; [vm_compute; reflexivity |].
  repeat split. intros [Hstart _]. discriminate Hstart.
Qed.

(** ** Navigation timing is recorded once *)

Section NavigationOnce.
Context {num : Type} `{JsNumber num}.

#[local] Arguments pollResourceTimingEntries : simpl never.
#[local] Arguments resourceTimingObserverCallback : simpl never.
#[local] Arguments pushPaintTimingToSpan : simpl never.
#[local] Arguments pushLcpTimingToSpan : simpl never.
#[local] Arguments navigationAttributes : simpl never.

Lemma onSpanFrom_weaken (span span' : SpanId) (c : TracerCall num) :
  span <= span' -> onSpanFrom span' c -> onSpanFrom span c.
Proof. destruct c; cbn; lia. Qed.

Lemma resourceSpansFrom_onSpanFrom (root : SpanId)
  (entries : list (ResourceTiming.t num)) :
  forall span, Forall (onSpanFrom span) (resourceSpansFrom root span entries).
Proof.
  induction entries as [|entry rest IH]; intros span; [constructor |].
  cbn [resourceSpansFrom resourceSpanCalls app].
  constructor; [cbn; lia |]. constructor; [cbn; lia |].
  eapply Forall_impl; [apply (IH (S span)) |].
  intros c. apply onSpanFrom_weaken. lia.
Qed.

Lemma filter_navigation_nested (root span : SpanId) (calls : list (TracerCall num)) :
  root < span -> Forall (onSpanFrom span) calls ->
  List.filter (isNavigationCall root) calls = [].
Proof.
  intros Hlt Hall. induction Hall as [|c calls Hc _ IH]; [reflexivity |].
  cbn [List.filter]. rewrite IH.
  destruct c as [| | |s [t|]]; cbn in *; try reflexivity; try contradiction.
  destruct (Nat.eqb_spec s root); [lia | reflexivity].
Qed.

Lemma pushNavigationTimingToSpan_effect (entry : NavigationTiming.t num)
  (w : World num) :
  pushNavigationTimingToSpan entry w
  = (Normal tt,
     {| self := self w;
        host := emit (navigationCalls (Instance.rootSpan (self w)) entry) 0 (host w) |}).
Proof.
  unfold pushNavigationTimingToSpan, navigationCalls. js_compute.
  now rewrite <- app_assoc.
Qed.

Lemma onFCPReport_effect (fcpEntry : option (PerformanceEntry.t num))
  (navigationEntry : option (NavigationTiming.t num)) (w : World num) :
  let afterNavigation :=
    match navigationEntry with
    | Some entry =>
        if Instance.wasNavigationEntryPushed (self w) then w
        else {| self := set_wasNavigationEntryPushed true (self w);
                host := emit (navigationCalls (Instance.rootSpan (self w)) entry)
                          0 (host w) |}
    | None => w
    end in
  onFCPReport (fcpReport fcpEntry navigationEntry) w
  = match fcpEntry with
    | Some paint => pushPaintTimingToSpan paint afterNavigation
    | None => (Normal tt, afterNavigation)
    end.
Proof.
  unfold onFCPReport, fcpReport.
  cbn [FCPMetricWithAttribution.attribution FCPMetricWithAttribution.fcpEntry
       FCPMetricWithAttribution.navigationEntry].
  unfold bind at 1. unfold getSelf at 1. cbv beta iota.
  destruct navigationEntry as [entry|].
  - destruct (Instance.wasNavigationEntryPushed (self w)); cbn [negb].
    + unfold bind at 1, ret at 1. destruct fcpEntry; reflexivity.
    + unfold bind at 1. unfold bind at 1.
      rewrite pushNavigationTimingToSpan_effect.
      unfold modifySelf at 1. cbv beta iota. cbn [self host].
      destruct fcpEntry; reflexivity.
  - unfold bind at 1, ret at 1. destruct fcpEntry; reflexivity.
Qed.

(** What one event does to the navigation calls in the log. *)
Lemma step_navigation (ev : Event num) (w : World num) :
  Instance.rootSpan (self w) < Host.nextSpanId (host w) ->
  let root := Instance.rootSpan (self w) in
  let w' := step ev w in
  Instance.rootSpan (self w') = root /\
  Host.nextSpanId (host w) <= Host.nextSpanId (host w') /\
  Instance.wasNavigationEntryPushed (self w')
    = Instance.wasNavigationEntryPushed (self w)
      || match navigationEntryOf ev with Some _ => true | None => false end /\
  List.filter (isNavigationCall root) (tracerLog w')
    = (List.filter (isNavigationCall root) (tracerLog w) ++
       if Instance.wasNavigationEntryPushed (self w) then []
       else match navigationEntryOf ev with
            | Some entry => navigationCalls root entry
            | None => []
            end)%list.
Proof.
  intros Hlt root w'. subst w'. unfold step, tracerLog.
  destruct ev as [resources | | state now | doc metric | metric | o entries
                  | timer resources]; unfold deliver.
  - unfold enable, addVisibilityChangeListener. js_compute.
    destruct (Host.hasPerformanceObserver (host w)).
    + unfold observeResourceTimings. js_compute.
      rewrite orb_false_r. repeat split; try lia.
      destruct (Instance.wasNavigationEntryPushed (self w)); now rewrite app_nil_r.
    + rewrite pollResourceTimingEntries_instance. unfold afterPoll. cbn.
      rewrite orb_false_r. repeat split; try lia.
      rewrite List.filter_app.
      rewrite (filter_navigation_nested root (Host.nextSpanId (host w))
                 (resourceSpansFrom _ _ _));
        [| exact Hlt | apply resourceSpansFrom_onSpanFrom].
      now destruct (Instance.wasNavigationEntryPushed (self w)).
  - unfold disable. js_compute.
    destruct (Instance.resourceTimingObserver (self w)); cbn;
      rewrite orb_false_r, List.filter_app; cbn; (repeat split; try lia);
      now destruct (Instance.wasNavigationEntryPushed (self w)).
  - unfold onVisibilityChange.
    destruct (String.eqb state "hidden"); js_compute;
      rewrite orb_false_r; (repeat split; try lia);
      destruct (Instance.wasNavigationEntryPushed (self w)); now rewrite app_nil_r.
  - unfold onLCPReport. destruct metric as [[[entry|]]]; cbn.
    + unfold execute. rewrite pushLcpTimingToSpan_effect. cbn.
      rewrite orb_false_r, List.filter_app. cbn.
      destruct (Nat.eqb_spec (Host.nextSpanId (host w)) root); [lia |].
      repeat split; try lia.
      now destruct (Instance.wasNavigationEntryPushed (self w)).
    + js_compute. rewrite orb_false_r. repeat split; try lia.
      destruct (Instance.wasNavigationEntryPushed (self w)); now rewrite app_nil_r.
  - destruct metric as [[fcpEntry navigationEntry]].
    change (FCPMetricWithAttribution.mk
              (FCPMetricWithAttribution.mk_attribution fcpEntry navigationEntry))
      with (fcpReport fcpEntry navigationEntry).
    unfold execute. rewrite onFCPReport_effect.
    cbn [navigationEntryOf fcpReport FCPMetricWithAttribution.attribution
         FCPMetricWithAttribution.navigationEntry].
    assert (Hne : Nat.eqb (Host.nextSpanId (host w)) root = false)
      by (apply Nat.eqb_neq; lia).
    destruct navigationEntry as [entry|];
      [destruct (Instance.wasNavigationEntryPushed (self w)) eqn:Hflag |];
      destruct fcpEntry as [paint|];
      rewrite ?pushPaintTimingToSpan_effect; unfold navigationCalls; cbn;
      rewrite ?Hflag, ?orb_false_r, ?List.filter_app; cbn; fold root;
      rewrite ?Nat.eqb_refl, ?Hne, ?app_nil_r, <- ?app_assoc; cbn;
      (repeat split; try lia);
      try (destruct (Instance.wasNavigationEntryPushed (self w));
           now rewrite ?app_nil_r).
  - unfold execute, bind, getHost. cbv beta iota.
    case_bool_decide.
    + rewrite resourceTimingObserverCallback_effect. cbn.
      rewrite orb_false_r. repeat split; try lia.
      rewrite List.filter_app.
      rewrite (filter_navigation_nested root (Host.nextSpanId (host w))
                 (resourceSpansFrom _ _ _));
        [| exact Hlt | apply resourceSpansFrom_onSpanFrom].
      now destruct (Instance.wasNavigationEntryPushed (self w)).
    + js_compute. rewrite orb_false_r. repeat split; try lia.
      destruct (Instance.wasNavigationEntryPushed (self w)); now rewrite app_nil_r.
  - unfold execute, bind, getHost. cbv beta iota.
    destruct (_ !! timer) as [[[] delay]|].
    + unfold runTimerCallback, modifyHost. cbn [timerCallback]. cbv beta iota.
      rewrite pollResourceTimingEntries_host. cbn.
      rewrite orb_false_r. repeat split; try lia.
      destruct (Instance.wasNavigationEntryPushed (self w)); now rewrite app_nil_r.
    + js_compute. rewrite orb_false_r. repeat split; try lia.
      destruct (Instance.wasNavigationEntryPushed (self w)); now rewrite app_nil_r.
Qed.

Lemma run_navigation (evs : list (Event num)) :
  forall w : World num,
    Instance.rootSpan (self w) < Host.nextSpanId (host w) ->
    let root := Instance.rootSpan (self w) in
    Instance.rootSpan (self (run evs w)) = root /\
    Instance.wasNavigationEntryPushed (self (run evs w))
      = Instance.wasNavigationEntryPushed (self w)
        || match firstNavigationEntry evs with Some _ => true | None => false end /\
    List.filter (isNavigationCall root) (tracerLog (run evs w))
      = (List.filter (isNavigationCall root) (tracerLog w) ++
         if Instance.wasNavigationEntryPushed (self w) then []
         else match firstNavigationEntry evs with
              | Some entry => navigationCalls root entry
              | None => []
              end)%list.
Proof.
  induction evs as [|ev rest IH]; intros w Hlt root.
  - cbn. rewrite orb_false_r. repeat split.
    destruct (Instance.wasNavigationEntryPushed (self w)); now rewrite app_nil_r.
  - cbn [run fold_left firstNavigationEntry].
    destruct (step_navigation ev w Hlt) as (Hroot & Hnext & Hflag & Hlog).
    fold root in Hroot, Hlog.
    destruct (IH (step ev w)) as (Hroot' & Hflag' & Hlog'); [lia |].
    unfold run in *. rewrite Hroot in *. rewrite Hroot', Hflag', Hlog', Hflag, Hlog.
    split; [reflexivity |].
    destruct (Instance.wasNavigationEntryPushed (self w)); cbn [orb].
    + split; [reflexivity | now rewrite !app_nil_r].
    + destruct (navigationEntryOf ev) as [entry|]; cbn [orb].
      * split; [reflexivity | now rewrite app_nil_r].
      * split; [reflexivity | now rewrite app_nil_r].
Qed.

(** C1.  Take an instance from its construction through any sequence of
    events: first-paint reports, with or without a navigation entry, and
    anything else the host may do in between.  The calls in the log that
    set attributes on the root span or end it at a given time are none
    if no report carried a navigation entry, and otherwise exactly the two
    calls made for the entry of the first report that carried one; the
    flag records whether that has happened. *)
Theorem navigation_timing_recorded_once
  (ignoreResourceUrls : option (list string)) (hasPO : bool)
  (evs : list (Event num)) :
  let w := run evs (construct ignoreResourceUrls (Host.initial num hasPO)) in
  let root := Instance.rootSpan (self w) in
  List.filter (isNavigationCall root) (tracerLog w)
    = match firstNavigationEntry evs with
      | Some entry =>
          [ SetAttributes root (navigationAttributes entry);
            EndSpan root (Some (NavigationTiming.domContentLoadedEventEnd entry)) ]
      | None => []
      end /\
  Instance.wasNavigationEntryPushed (self w)
    = match firstNavigationEntry evs with Some _ => true | None => false end.
Proof.
  intros w root.
  destruct (run_navigation evs (construct ignoreResourceUrls (Host.initial num hasPO)))
    as (Hroot & Hflag & Hlog); [cbn; lia |].
  fold w in Hroot, Hflag, Hlog. subst root. rewrite Hroot.
  split; [| exact Hflag]. rewrite Hlog. cbn.
  destruct (firstNavigationEntry evs); reflexivity.
Qed.

(** A later report that carries a navigation entry changes nothing about
    the navigation calls. *)
Example navigation_second_report_ignored :
  tracerLog (run [EvFCPReport navigationReportAt120;
                  EvFCPReport (fcpReport None (Some (sampleNavigation 480%Z)))]
               (construct None (Host.initial Z true)))
  = tracerLog (run [EvFCPReport navigationReportAt120]
                 (construct None (Host.initial Z true))).
Proof. reflexivity. Qed.

End NavigationOnce.

(** ** Shutdown *)

Section Shutdown.
Context {num : Type} `{JsNumber num}.

#[local] Arguments pollResourceTimingEntries : simpl never.

Lemma disable_effect (w : World num) :
  disable w
  = (Normal tt,
     {| self := self w;
        host := logCall (EndSpan (Instance.rootSpan (self w)) None)
                  match Instance.resourceTimingObserver (self w) with
                  | Some o =>
                      withObservers (Host.observing (host w) ∖ {[o]})
                        (Host.nextObserverId (host w)) (host w)
                  | None => host w
                  end |}).
Proof.
  unfold disable. unfold bind at 1, getSelf at 1. cbv beta iota.
  destruct (Instance.resourceTimingObserver (self w)); reflexivity.
Qed.




(** [disable] never touches the timers. *)
Lemma disable_timers (w : World num) :
  Host.pendingTimers (host (execute disable w)) = Host.pendingTimers (host w) /\
  Instance.resourceEntryPollTimeout (self (execute disable w))
    = Instance.resourceEntryPollTimeout (self w).
Proof.
  unfold execute. rewrite disable_effect. cbn.
  destruct (Instance.resourceTimingObserver (self w)); split; reflexivity.
Qed.

(** C4, at the failing input.  On a host without [PerformanceObserver],
    [enable()] arms the poll timer; after [disable()] that timer is still
    pending, under the handle the instance still holds, and the host fires
    it: the poll callback runs after shutdown.  It runs with the host's
    receiver, so it throws, and the log gains no span. *)
Theorem disable_leaves_poll_timer_pending
  (ignoreResourceUrls : option (list string))
  (resources later : list (ResourceTiming.t num)) :
  let constructed := construct ignoreResourceUrls (Host.initial num false) in
  let enabled := step (EvEnable resources) constructed in
  let disabled := step EvDisable enabled in
  Instance.resourceEntryPollTimeout (self disabled) = Some 1%N /\
  Host.pendingTimers (host disabled) = Host.pendingTimers (host enabled) /\
  Host.pendingTimers (host disabled) !! 1%N
    = Some (mkTimerTask UnboundPollResourceTimingEntries 5000) /\
  deliver (EvTimer 1%N later) disabled
    = pollResourceTimingEntries ThisOfHost later
        {| self := self disabled;
           host := withTimers (delete 1%N (Host.pendingTimers (host disabled)))
                     (Host.nextTimerId (host disabled)) (host disabled) |} /\
  completion (deliver (EvTimer 1%N later)) disabled
    = Throw (TypeError "this.getResourcesToTrack is not a function") /\
  tracerLog (step (EvTimer 1%N later) disabled) = tracerLog disabled.
Proof.
  intros constructed enabled disabled.
  assert (Henabled :
    enabled = afterPoll resources
                {| self := self constructed;
                   host := subscribe (SubFCP true)
                             (subscribe (SubLCP true)
                                (subscribe SubVisibilityChange (host constructed))) |}).
  { subst enabled. unfold step, deliver, enable, addVisibilityChangeListener.
    js_compute. now rewrite pollResourceTimingEntries_instance. }
  assert (Htimer : Host.pendingTimers (host enabled) !! 1%N
                   = Some (mkTimerTask UnboundPollResourceTimingEntries 5000)).
  { rewrite Henabled. unfold afterPoll, timersAfterClear. cbn.
    apply lookup_insert_eq. }
  assert (Hhandle : Instance.resourceEntryPollTimeout (self enabled) = Some 1%N)
    by (rewrite Henabled; reflexivity).
  destruct (disable_timers enabled) as [Hkept Hfield].
  change (execute disable enabled) with disabled in Hkept, Hfield.
  assert (Hfire : deliver (EvTimer 1%N later) disabled
    = pollResourceTimingEntries ThisOfHost later
        {| self := self disabled;
           host := withTimers (delete 1%N (Host.pendingTimers (host disabled)))
                     (Host.nextTimerId (host disabled)) (host disabled) |}).
  { assert (Hlook : Host.pendingTimers (host disabled) !! 1%N
                    = Some (mkTimerTask UnboundPollResourceTimingEntries 5000))
      by (rewrite Hkept; exact Htimer).
    unfold deliver, bind, getHost. cbv beta iota. rewrite Hlook. reflexivity. }
  split; [congruence |]. split; [exact Hkept |]. split; [congruence |].
  split; [exact Hfire |].
  unfold completion, step, execute. rewrite Hfire.
  split; reflexivity.
Qed.

End Shutdown.



(** ** One span per resource key, for the life of the instance *)

Section Lifetime.
Context {num : Type} `{JsNumber num}.

#[local] Arguments pollResourceTimingEntries : simpl never.
#[local] Arguments resourceTimingObserverCallback : simpl never.
#[local] Arguments pushPaintTimingToSpan : simpl never.
#[local] Arguments pushLcpTimingToSpan : simpl never.
#[local] Arguments navigationAttributes : simpl never.

Lemma dedupCovers_frame (w w' : World num) (calls : list (TracerCall num)) :
  tracerLog w' = (tracerLog w ++ calls)%list ->
  omap resourceSpanKey calls = [] ->
  Instance.resourceEntriesSet (self w') = Instance.resourceEntriesSet (self w) ->
  dedupCovers w -> dedupCovers w'.
Proof.
  intros Hlog Hnone Hset [Hnd Hcov]. unfold dedupCovers.
  rewrite Hlog, omap_app, Hnone, app_nil_r, Hset. now split.
Qed.

Lemma step_pollStrategy (ev : Event num) (w : World num) :
  pollStrategy w -> dedupCovers w ->
  pollStrategy (step ev w) /\ dedupCovers (step ev w).
Proof.
  intros [HnoPO Hnone] Hcov. unfold step, pollStrategy.
  destruct ev as [resources | | state now | doc metric | [[fcpEntry navigationEntry]]
                  | o entries | timer resources]; unfold deliver.
  - unfold enable, addVisibilityChangeListener. js_compute. rewrite HnoPO.
    rewrite pollResourceTimingEntries_instance.
    split; [unfold afterPoll; cbn; now split |].
    match goal with
    | |- dedupCovers (_, afterPoll _ ?w1).2 =>
        assert (Hcov1 : dedupCovers w1) by exact Hcov;
        pose proof (dedupCovers_poll ThisInstance resources w1 Hcov1) as Hpoll
    end.
    unfold execute in Hpoll. now rewrite pollResourceTimingEntries_instance in Hpoll.
  - unfold execute. rewrite disable_effect. cbn [snd].
    split.
    + unfold logCall, withObservers.
      destruct (Instance.resourceTimingObserver (self w)); cbn;
        (split; [assumption |]); rewrite ?Hnone; set_solver.
    + eapply (dedupCovers_frame w _ [EndSpan (Instance.rootSpan (self w)) None]);
        [| reflexivity | reflexivity | exact Hcov].
      unfold tracerLog, logCall. cbn.
      now destruct (Instance.resourceTimingObserver (self w)).
  - unfold onVisibilityChange.
    destruct (String.eqb state "hidden"); js_compute; (split; [now split |]);
      (eapply (dedupCovers_frame w _ []);
       [unfold tracerLog; cbn; now rewrite app_nil_r
       | reflexivity | reflexivity | exact Hcov]).
  - unfold onLCPReport. destruct metric as [[[entry|]]]; cbn.
    + unfold execute. rewrite pushLcpTimingToSpan_effect. cbn [snd].
      split; [now split |].
      eapply dedupCovers_frame; [reflexivity | reflexivity | reflexivity | exact Hcov].
    + js_compute. split; [now split |].
      eapply (dedupCovers_frame w _ []);
        [unfold tracerLog; cbn; now rewrite app_nil_r
        | reflexivity | reflexivity | exact Hcov].
  - change (FCPMetricWithAttribution.mk
              (FCPMetricWithAttribution.mk_attribution fcpEntry navigationEntry))
      with (fcpReport fcpEntry navigationEntry).
    unfold execute. rewrite onFCPReport_effect.
    destruct navigationEntry as [entry|];
      [destruct (Instance.wasNavigationEntryPushed (self w)) |];
      destruct fcpEntry as [paint|];
      rewrite ?pushPaintTimingToSpan_effect; cbn [snd self host];
      (split; [now split |]);
      (eapply dedupCovers_frame;
       [unfold tracerLog; cbn; rewrite <- ?app_assoc; reflexivity
       | reflexivity | reflexivity | exact Hcov])
      || (eapply (dedupCovers_frame w _ []);
          [unfold tracerLog; cbn; now rewrite app_nil_r
          | reflexivity | reflexivity | exact Hcov]).
  - unfold execute, bind, getHost. cbv beta iota.
    rewrite Hnone. rewrite bool_decide_eq_false_2 by set_solver.
    js_compute. split; [now split |].
    eapply (dedupCovers_frame w _ []);
      [unfold tracerLog; cbn; now rewrite app_nil_r
      | reflexivity | reflexivity | exact Hcov].
  - unfold execute, bind, getHost. cbv beta iota.
    destruct (_ !! timer) as [[[] delay]|].
    + unfold runTimerCallback, modifyHost. cbn [timerCallback]. cbv beta iota.
      rewrite pollResourceTimingEntries_host. cbn. split; [now split |].
      eapply (dedupCovers_frame w _ []);
        [unfold tracerLog; cbn; now rewrite app_nil_r
        | reflexivity | reflexivity | exact Hcov].
    + js_compute. split; [now split |].
      eapply (dedupCovers_frame w _ []);
        [unfold tracerLog; cbn; now rewrite app_nil_r
        | reflexivity | reflexivity | exact Hcov].
Qed.

Lemma run_pollStrategy (evs : list (Event num)) :
  forall w, pollStrategy w -> dedupCovers w ->
            pollStrategy (run evs w) /\ dedupCovers (run evs w).
Proof.
  induction evs as [|ev rest IH]; intros w Hpoll Hcov; [now split |].
  cbn [run fold_left].
  destruct (step_pollStrategy ev w Hpoll Hcov) as [Hpoll' Hcov'].
  now apply IH.
Qed.

Lemma NoDup_resourceSpanIdentity (calls : list (TracerCall num)) :
  NoDup (omap resourceSpanKey calls) -> NoDup (omap resourceSpanIdentity calls).
Proof.
  intros Hnd. apply (NoDup_fmap_1 keyOfIdentity).
  replace (keyOfIdentity <$> omap resourceSpanIdentity calls)
    with (omap resourceSpanKey calls); [exact Hnd |].
  clear Hnd. induction calls as [|c calls IH]; [reflexivity |].
  cbn [omap list_omap]. unfold resourceSpanKey at 1.
  destruct (resourceSpanIdentity c); cbn; now rewrite IH.
Qed.

(** C2.  On a host without [PerformanceObserver], from construction
    through any sequence of events (calls of [enable] and [disable],
    reports, visibility changes, timers firing, each poll cycle with
    whatever resource entries are enumerated then), the resource spans in
    the log carry pairwise different keys, and so pairwise different
    (name, startTime, entryType) triples, and each key is in the dedup
    set.  The same holds for any run of poll cycles called on the
    instance; and a cycle that enumerates the entries the cycle before it
    has handled adds no call to the log. *)
Theorem poll_emits_each_key_once
  (ignoreResourceUrls : option (list string))
  (evs : list (Event num))
  (cycles : list (Receiver * list (ResourceTiming.t num))) :
  let w0 := construct ignoreResourceUrls (Host.initial num false) in
  (NoDup (omap resourceSpanKey (tracerLog (run evs w0))) /\
   NoDup (omap resourceSpanIdentity (tracerLog (run evs w0))) /\
   forall k, k ∈ omap resourceSpanKey (tracerLog (run evs w0)) ->
             k ∈ Instance.resourceEntriesSet (self (run evs w0))) /\
  (NoDup (omap resourceSpanKey (tracerLog (pollCycles cycles w0))) /\
   NoDup (omap resourceSpanIdentity (tracerLog (pollCycles cycles w0))) /\
   forall k, k ∈ omap resourceSpanKey (tracerLog (pollCycles cycles w0)) ->
             k ∈ Instance.resourceEntriesSet (self (pollCycles cycles w0))) /\
  (forall this resources,
     tracerLog (pollCycles (cycles ++ [(ThisInstance, resources); (this, resources)]) w0)
     = tracerLog (pollCycles (cycles ++ [(ThisInstance, resources)]) w0)).
Proof.
  intros w0.
  assert (Hcov0 : dedupCovers w0) by apply dedupCovers_construct.
  assert (Hpoll0 : pollStrategy w0) by (split; reflexivity).
  destruct (run_pollStrategy evs w0 Hpoll0 Hcov0) as [_ [Hnd Hcov]].
  destruct (dedupCovers_pollCycles cycles w0 Hcov0) as [Hnd' Hcov'].
  split; [| split].
  - split; [exact Hnd |]. split; [now apply NoDup_resourceSpanIdentity | exact Hcov].
  - split; [exact Hnd' |]. split; [now apply NoDup_resourceSpanIdentity | exact Hcov'].
  - intros this resources. rewrite !pollCycles_app. apply poll_again_adds_nothing.
Qed.

End Lifetime.

Lemma poll_emits_each_key_once_witness :
  "https://x/static/bar.js:10:resource"
  ∈ Instance.resourceEntriesSet
      (self (run [EvEnable apiAndStatic; EvTimer 1%N apiAndStatic;
                  EvEnable apiAndStatic]
               (construct (Some ["/api/"]) (Host.initial Z false)))).
Proof.
  apply (proj2 (proj2 (proj1
           (poll_emits_each_key_once (Some ["/api/"])
              [EvEnable apiAndStatic; EvTimer 1%N apiAndStatic;
               EvEnable apiAndStatic] [])))).
  vm_compute. apply list_elem_of_here.
Defined.

(** Two overlapping cycles, one span per key. *)
Example overlapping_cycles :
  omap resourceSpanKey
    (tracerLog (pollCycles
       [ (ThisInstance, [sampleResource "a.js" 1%Z 2%Z; sampleResource "b.js" 2%Z 2%Z]);
         (ThisInstance, [sampleResource "b.js" 2%Z 2%Z; sampleResource "c.js" 3%Z 2%Z]) ]
       (construct None (Host.initial Z false))))
  = ["a.js:1:resource"; "b.js:2:resource"; "c.js:3:resource"].
Proof. reflexivity. Qed.

(** ** The hidden duration, for the life of the instance *)

Section VisibilityLifetime.
Context {num : Type} `{JsNumber num}.

#[local] Arguments pollResourceTimingEntries : simpl never.
#[local] Arguments resourceTimingObserverCallback : simpl never.
#[local] Arguments pushPaintTimingToSpan : simpl never.
#[local] Arguments pushLcpTimingToSpan : simpl never.

(** Only the visibility listener writes the two visibility fields. *)
Lemma step_keeps_visibility (ev : Event num) (w : World num) :
  isVisibilityChange ev = false ->
  Instance.pageLastHiddenAt (self (step ev w)) = Instance.pageLastHiddenAt (self w) /\
  Instance.pageHiddenFor (self (step ev w)) = Instance.pageHiddenFor (self w).
Proof.
  intros Hother. unfold step.
  destruct ev as [resources | | state now | doc metric | [[fcpEntry navigationEntry]]
                  | o entries | timer resources]; try discriminate Hother;
    unfold deliver.
  - unfold enable, addVisibilityChangeListener. js_compute.
    destruct (Host.hasPerformanceObserver (host w)).
    + unfold observeResourceTimings. js_compute. now split.
    + rewrite pollResourceTimingEntries_instance. now split.
  - unfold execute. rewrite disable_effect. now split.
  - unfold onLCPReport. destruct metric as [[[entry|]]]; cbn.
    + unfold execute. rewrite pushLcpTimingToSpan_effect. now split.
    + now split.
  - change (FCPMetricWithAttribution.mk
              (FCPMetricWithAttribution.mk_attribution fcpEntry navigationEntry))
      with (fcpReport fcpEntry navigationEntry).
    unfold execute. rewrite onFCPReport_effect.
    destruct navigationEntry as [entry|];
      [destruct (Instance.wasNavigationEntryPushed (self w)) |];
      destruct fcpEntry as [paint|];
      rewrite ?pushPaintTimingToSpan_effect; now split.
  - unfold execute, bind, getHost. cbv beta iota.
    case_bool_decide; [rewrite resourceTimingObserverCallback_effect |]; now split.
  - unfold execute, bind, getHost. cbv beta iota.
    destruct (_ !! timer) as [[[] delay]|]; [| now split].
    unfold runTimerCallback, modifyHost. cbn [timerCallback]. cbv beta iota.
    rewrite pollResourceTimingEntries_host. now split.
Qed.

Lemma run_keeps_visibility (evs : list (Event num)) :
  forall w,
    forallb (fun ev => negb (isVisibilityChange ev)) evs = true ->
    Instance.pageLastHiddenAt (self (run evs w)) = Instance.pageLastHiddenAt (self w) /\
    Instance.pageHiddenFor (self (run evs w)) = Instance.pageHiddenFor (self w).
Proof.
  induction evs as [|ev rest IH]; intros w Hall; [now split |].
  cbn [forallb] in Hall. apply andb_true_iff in Hall as [Hev Hrest].
  apply negb_true_iff in Hev. cbn [run fold_left].
  destruct (IH (step ev w) Hrest) as [Hat Hfor].
  destruct (step_keeps_visibility ev w Hev) as [Hat' Hfor'].
  unfold run in *. split; congruence.
Qed.

Lemma run_app (xs ys : list (Event num)) (w : World num) :
  run (xs ++ ys) w = run ys (run xs w).
Proof. apply fold_left_app. Qed.

(** C5.  Whatever happened before, a change to hidden at [hiddenAt] stores
    that time and leaves the hidden duration as it was.  When the next
    visibility change, to a visible state at [now], comes (other events
    may lie in between), the hidden duration becomes [now - hiddenAt],
    whatever value it had: it is overwritten, nothing is added to it. *)
Theorem hidden_duration_is_last_interval
  (before between : list (Event num)) (w : World num)
  (hiddenAt now : num) (state : string)
  (Hshown : state <> "hidden")
  (Hbetween : forallb (fun ev => negb (isVisibilityChange ev)) between = true) :
  let hidden := run (before ++ [EvVisibilityChange "hidden" hiddenAt]) w in
  let shown :=
    run (before ++ [EvVisibilityChange "hidden" hiddenAt] ++ between
                ++ [EvVisibilityChange state now]) w in
  Instance.pageLastHiddenAt (self hidden) = hiddenAt /\
  Instance.pageHiddenFor (self hidden) = Instance.pageHiddenFor (self (run before w)) /\
  Instance.pageHiddenFor (self shown) = num_sub now hiddenAt.
Proof.
  intros hidden shown.
  set (hide := onVisibilityChange "hidden" hiddenAt).
  assert (Hhidden : hidden = execute hide (run before w))
    by (subst hidden; rewrite run_app; reflexivity).
  assert (Hshow : shown = execute (onVisibilityChange state now)
                            (run between (execute hide (run before w))))
    by (subst shown; rewrite !run_app; reflexivity).
  rewrite Hhidden, Hshow. clear Hhidden Hshow hidden shown.
  rewrite (onVisibilityChange_shown state now _ Hshown).
  destruct (run_keeps_visibility between (execute hide (run before w)) Hbetween)
    as [Hat _].
  cbn [self set_pageHiddenFor Instance.pageHiddenFor]. rewrite Hat.
  subst hide. rewrite onVisibilityChange_hidden. cbn. auto.
Qed.

End VisibilityLifetime.

Lemma hidden_duration_is_last_interval_witness :
  Instance.pageHiddenFor
    (self (run [ EvVisibilityChange "hidden" 100%Z;
                 EvFCPReport navigationReportAt120;
                 EvVisibilityChange "visible" 150%Z ]
             (construct None (Host.initial Z true)))) = 50%Z.
Proof.
  exact (proj2 (proj2 (hidden_duration_is_last_interval
    [] [EvFCPReport navigationReportAt120]
    (construct None (Host.initial Z true)) 100%Z 150%Z
    "visible" ltac:(discriminate) ltac:(reflexivity)))).
Defined.

(** The stored duration is what the next content-paint span carries. *)
Example hidden_duration_on_lcp_span :
  tracerLog
    (execute (pushLcpTimingToSpan (chainDocument 0)
                (LargestContentfulPaint.mk None "largest-contentful-paint"
                   0%Z 900%Z 900%Z ""))
       (visibilityChanges [("hidden", 100%Z); ("visible", 150%Z)]
          (construct None (Host.initial Z true))))
  = [ StartRootSpan 0 "PAGE_LOAD" [] 0%Z;
      StartNestedSpan 1 "LARGEST_CONTENTFUL_PAINT" 0
        [ ("url", AttrString ""); ("renderTime", AttrNumber 900%Z);
          ("element", AttrString "");
          ("entryType", AttrString "largest-contentful-paint");
          ("loadTime", AttrNumber 0%Z); ("pageHiddenFor", AttrNumber 50%Z) ]
        0%Z;
      EndSpan 1 (Some 900%Z) ].
Proof. reflexivity. Qed.

(** A second cycle replaces the stored duration: 30, not 50 + 30. *)
Example hidden_duration_second_cycle :
  Instance.pageHiddenFor
    (self (visibilityChanges
             [("hidden", 100%Z); ("visible", 150%Z);
              ("hidden", 200%Z); ("visible", 230%Z)]
             (construct None (Host.initial Z true)))) = 30%Z.
Proof. reflexivity. Qed.

(* ===================================================================== *)
(** * Further properties *)
(* ===================================================================== *)

(** ** Each event as a transition *)

Section TransitionProperties.
Context {num : Type} `{JsNumber num}.

#[local] Arguments pollResourceTimingEntries : simpl never.
#[local] Arguments resourceTimingObserverCallback : simpl never.
#[local] Arguments pushPaintTimingToSpan : simpl never.
#[local] Arguments pushLcpTimingToSpan : simpl never.
#[local] Arguments navigationAttributes : simpl never.

Lemma world_eta (w : World num) : {| self := self w; host := host w |} = w.
Proof. now destruct w. Qed.

Lemma host_eta (h : Host.t num) :
  {| Host.tracerCalls := Host.tracerCalls h; Host.nextSpanId := Host.nextSpanId h;
     Host.pendingTimers := Host.pendingTimers h; Host.nextTimerId := Host.nextTimerId h;
     Host.observing := Host.observing h; Host.nextObserverId := Host.nextObserverId h;
     Host.subscriptions := Host.subscriptions h;
     Host.hasPerformanceObserver := Host.hasPerformanceObserver h |} = h.
Proof. now destruct h. Qed.

(** The handlers, run by the host, do what [transition] says. *)
Lemma step_transition (ev : Event num) (w : World num) :
  step ev w = transition ev w.
Proof.
  unfold step, transition.
  destruct ev as [resources | | state now | doc metric | [[fcpEntry navigationEntry]]
                  | o entries | timer resources]; unfold deliver.
  - unfold enable, addVisibilityChangeListener. js_compute.
    destruct (Host.hasPerformanceObserver (host w)) eqn:HPO.
    + unfold observeResourceTimings. js_compute.
      rewrite app_nil_r, <- !app_assoc. reflexivity.
    + rewrite pollResourceTimingEntries_instance. unfold afterPoll. cbn.
      rewrite <- !app_assoc. reflexivity.
  - unfold execute. rewrite disable_effect. cbn.
    destruct (Instance.resourceTimingObserver (self w)); reflexivity.
  - unfold onVisibilityChange, selfAfter.
    destruct (String.eqb state "hidden"); js_compute;
      rewrite app_nil_r; now rewrite host_eta.
  - unfold onLCPReport. destruct metric as [[[entry|]]]; cbn.
    + unfold execute. rewrite pushLcpTimingToSpan_effect. reflexivity.
    + rewrite app_nil_r, host_eta. symmetry. apply world_eta.
  - change (FCPMetricWithAttribution.mk
              (FCPMetricWithAttribution.mk_attribution fcpEntry navigationEntry))
      with (fcpReport fcpEntry navigationEntry).
    unfold execute. rewrite onFCPReport_effect. unfold fcpReport. cbn.
    destruct navigationEntry as [entry|];
      [destruct (Instance.wasNavigationEntryPushed (self w)) |];
      destruct fcpEntry as [paint|];
      rewrite ?pushPaintTimingToSpan_effect; unfold emit, navigationCalls; cbn;
      rewrite <- ?app_assoc; cbn;
      rewrite ?app_nil_r, ?host_eta, ?world_eta; reflexivity.
  - unfold execute, bind, getHost. cbv beta iota. cbn.
    case_bool_decide.
    + rewrite resourceTimingObserverCallback_effect. reflexivity.
    + cbn. rewrite app_nil_r, host_eta. symmetry. apply world_eta.
  - unfold execute, bind, getHost. cbv beta iota. cbn.
    destruct (_ !! timer) as [[[] delay]|] eqn:Hpending.
    + unfold runTimerCallback, modifyHost. cbn [timerCallback]. cbv beta iota.
      rewrite pollResourceTimingEntries_host. cbn. now rewrite app_nil_r.
    + cbn. rewrite app_nil_r.
      rewrite (delete_id (Host.pendingTimers (host w)) timer Hpending).
      rewrite host_eta. symmetry. apply world_eta.
Qed.

End TransitionProperties.

(** ** Names and labels *)

Lemma map_chars_length (f : ascii -> ascii) (s : string) :
  String.length (JsString.map_chars f s) = String.length s.
Proof. induction s as [|c s IH]; cbn; [reflexivity | now rewrite IH]. Qed.

Lemma map_chars_append (f : ascii -> ascii) (a b : string) :
  JsString.map_chars f (a +:+ b) = JsString.map_chars f a +:+ JsString.map_chars f b.
Proof.
  induction a as [|c a IH]; [reflexivity |].
  rewrite append_String. cbn [JsString.map_chars]. now rewrite IH, append_String.
Qed.

Lemma screamingChar_idempotent (c : ascii) :
  screamingChar (screamingChar c) = screamingChar c.
Proof. destruct c as [[] [] [] [] [] [] [] []]; vm_compute; reflexivity. Qed.

Lemma screamingChar_screams (c : ascii) :
  negb (Ascii.eqb (screamingChar c) "-") && negb (JsString.is_lower (screamingChar c))
  = true.
Proof. destruct c as [[] [] [] [] [] [] [] []]; vm_compute; reflexivity. Qed.

Lemma screamingChar_ascii (c : ascii) :
  (N_of_ascii c <? 128)%N = true -> (N_of_ascii (screamingChar c) <? 128)%N = true.
Proof. destruct c as [[] [] [] [] [] [] [] []]; vm_compute; intros Hc; congruence. Qed.

(** X1.  On ASCII text [kebabToScreamingSnakeCase] keeps the length of
    its argument and distributes over concatenation; its result is ASCII
    text again, holds no hyphen and no lower-case letter, and converting it
    again changes nothing. *)
Theorem kebabToScreamingSnakeCase_shape (str more : string)
  (Hstr : asciiText str = true) (Hmore : asciiText more = true) :
  asciiText (kebabToScreamingSnakeCase str) = true /\
  String.length (kebabToScreamingSnakeCase str) = String.length str /\
  kebabToScreamingSnakeCase (str +:+ more)
    = kebabToScreamingSnakeCase str +:+ kebabToScreamingSnakeCase more /\
  forallb (fun c => negb (Ascii.eqb c "-") && negb (JsString.is_lower c))
    (list_ascii_of_string (kebabToScreamingSnakeCase str)) = true /\
  kebabToScreamingSnakeCase (kebabToScreamingSnakeCase str)
    = kebabToScreamingSnakeCase str.
Proof.
  rewrite !kebabToScreamingSnakeCase_chars.
  split; [| split; [apply map_chars_length |]; split; [apply map_chars_append |]; split].
  - clear Hmore. unfold asciiText in *.
    induction str as [|c str IH]; [reflexivity |].
    cbn [JsString.map_chars list_ascii_of_string forallb] in *.
    apply andb_true_iff in Hstr as [Hc Hrest].
    rewrite (IH Hrest), andb_true_r. now apply screamingChar_ascii.
  - clear Hstr Hmore. induction str as [|c str IH]; [reflexivity |].
    cbn [JsString.map_chars list_ascii_of_string forallb].
    now rewrite screamingChar_screams, IH.
  - rewrite map_chars_map_chars. apply map_chars_ext, screamingChar_idempotent.
Qed.

Lemma kebabToScreamingSnakeCase_shape_witness :
  String.length (kebabToScreamingSnakeCase "largest-contentful-paint") = 24.
Proof.
  exact (proj1 (proj2 (kebabToScreamingSnakeCase_shape
                         "largest-contentful-paint" "" eq_refl eq_refl))).
Defined.






(** ** More on filtering and keys *)

Section FilterAndKey.
Context {num : Type} `{JsNumber num}.

Lemma includes_empty (s : string) : JsString.includes s "" = true.
Proof. rewrite includes_step. now destruct s. Qed.

(** X3.  [getResourcesToTrack] returns its argument when nothing is to be
    ignored, and nothing when the empty string is to be ignored (every name
    includes it).  In general it returns a sublist, in the order given, and
    works entry by entry: a list in two parts is filtered part by part. *)
Theorem getResourcesToTrack_edges (s : Instance.t num)
  (resources more : list (ResourceTiming.t num)) :
  (Instance.ignoreResourceUrls s = [] -> getResourcesToTrack s resources = resources) /\
  (In "" (Instance.ignoreResourceUrls s) -> getResourcesToTrack s resources = []) /\
  sublist (getResourcesToTrack s resources) resources /\
  getResourcesToTrack s (resources ++ more)
    = (getResourcesToTrack s resources ++ getResourcesToTrack s more)%list.
Proof.
  unfold getResourcesToTrack. split; [| split; [| split]].
  - intros ->. cbn [existsb negb].
    induction resources as [|e rest IH]; [reflexivity |]. cbn. now rewrite IH.
  - intros Hempty. induction resources as [|e rest IH]; [reflexivity |].
    cbn [List.filter]. rewrite IH.
    replace (existsb _ (Instance.ignoreResourceUrls s)) with true; [reflexivity |].
    symmetry. apply existsb_exists. exists "". split; [exact Hempty |].
    apply includes_empty.
  - induction resources as [|e rest IH]; [constructor |].
    cbn [List.filter]. destruct (negb _); [now apply sublist_skip | now apply sublist_cons].
  - apply List.filter_app.
Qed.

Lemma includes_tail (c : ascii) (s sub : string) :
  JsString.includes (String c s) sub = false -> JsString.includes s sub = false.
Proof.
  rewrite (includes_step (String c s)). intros Hno.
  now apply orb_false_iff in Hno as [_ Hno].
Qed.

Lemma includes_middle (a b sub : string) :
  JsString.includes (a +:+ sub +:+ b) sub = true.
Proof. apply includes_contains. now exists a, b. Qed.

(** A string is cut at its last colon in one way only. *)
Lemma cut_at_last_colon (a : string) :
  forall b c d : string,
    colonFree b = true -> colonFree d = true ->
    a +:+ ":" +:+ b = c +:+ ":" +:+ d -> a = c /\ b = d.
Proof.
  unfold colonFree.
  induction a as [|x a IH]; intros b c d Hb Hd Heq; destruct c as [|y c].
  - rewrite ?append_empty_l, ?append_String, ?append_empty_l in Heq.
    injection Heq as Heq. now subst.
  - rewrite append_empty_l in Heq.
    rewrite (append_String y c), (append_String ":" "" b), append_empty_l in Heq.
    injection Heq as Hy Heq. subst b.
    rewrite (includes_middle c d ":") in Hb. discriminate Hb.
  - rewrite append_empty_l in Heq.
    rewrite (append_String x a), (append_String ":" "" d), append_empty_l in Heq.
    injection Heq as Hx Heq. subst d.
    rewrite (includes_middle a b ":") in Hd. discriminate Hd.
  - rewrite (append_String x a), (append_String y c) in Heq.
    injection Heq as Hxy Heq. subst y.
    destruct (IH b c d Hb Hd Heq) as [-> ->]. now split.
Qed.

(** X4.  Two resource entries with the same key have the same name, the
    same printed start time and the same entry type, as long as neither
    the printed start times nor the entry types hold a colon (names may:
    URLs do). *)
Theorem getResourceEntryKey_injective (e1 e2 : ResourceTiming.t num)
  (Hstart1 : colonFree (num_to_string (ResourceTiming.startTime e1)) = true)
  (Hstart2 : colonFree (num_to_string (ResourceTiming.startTime e2)) = true)
  (Htype1 : colonFree (ResourceTiming.entryType e1) = true)
  (Htype2 : colonFree (ResourceTiming.entryType e2) = true)
  (Hkey : getResourceEntryKey e1 = getResourceEntryKey e2) :
  ResourceTiming.name e1 = ResourceTiming.name e2 /\
  num_to_string (ResourceTiming.startTime e1)
    = num_to_string (ResourceTiming.startTime e2) /\
  ResourceTiming.entryType e1 = ResourceTiming.entryType e2.
Proof.
  unfold getResourceEntryKey in Hkey.
  assert (Hregroup : forall n s t : string,
            n +:+ ":" +:+ s +:+ ":" +:+ t = (n +:+ ":" +:+ s) +:+ ":" +:+ t)
    by (intros; now rewrite !append_assoc).
  rewrite !Hregroup in Hkey.
  apply cut_at_last_colon in Hkey as [Hfront Htype]; [| assumption | assumption].
  apply cut_at_last_colon in Hfront as [Hname Hstart]; [| assumption | assumption].
  auto.
Qed.

End FilterAndKey.

Lemma getResourcesToTrack_edges_witness :
  getResourcesToTrack (self (construct (Some [""]) (Host.initial Z true))) apiAndStatic
    = [] /\
  getResourcesToTrack (self (construct None (Host.initial Z true))) apiAndStatic
    = apiAndStatic.
Proof.
  split.
  - apply (proj1 (proj2 (getResourcesToTrack_edges
             (self (construct (Some [""]) (Host.initial Z true))) apiAndStatic []))).
    left. reflexivity.
  - apply (proj1 (getResourcesToTrack_edges
             (self (construct None (Host.initial Z true))) apiAndStatic [])).
    reflexivity.
Defined.

Lemma getResourceEntryKey_injective_witness :
  getResourceEntryKey (sampleResource "https://x:8080/a.js" 10%Z 5%Z)
  = getResourceEntryKey (sampleResource "https://x:8080/a.js" 10%Z 7%Z) /\
  ResourceTiming.name (sampleResource "https://x:8080/a.js" 10%Z 5%Z)
  = ResourceTiming.name (sampleResource "https://x:8080/a.js" 10%Z 7%Z).
Proof.
  split; [reflexivity |].
  refine (proj1 (getResourceEntryKey_injective
                   (sampleResource "https://x:8080/a.js" 10%Z 5%Z)
                   (sampleResource "https://x:8080/a.js" 10%Z 7%Z) _ _ _ _ _));
    reflexivity.
Defined.

(** ** Invariants of a run *)

Section RunInvariants.
Context {num : Type} `{JsNumber num}.

Lemma run_invariant (P : World num -> Prop) :
  (forall ev w, P w -> P (step ev w)) ->
  forall evs w, P w -> P (run evs w).
Proof.
  intros Hstep. induction evs as [|ev rest IH]; intros w Hw; [exact Hw |].
  cbn [run fold_left]. apply IH, Hstep, Hw.
Qed.

Lemma run_invariant_when (ok : Event num -> bool) (P : World num -> Prop) :
  (forall ev w, ok ev = true -> P w -> P (step ev w)) ->
  forall evs w, forallb ok evs = true -> P w -> P (run evs w).
Proof.
  intros Hstep. induction evs as [|ev rest IH]; intros w Hok Hw; [exact Hw |].
  cbn [forallb] in Hok. apply andb_true_iff in Hok as [Hev Hrest].
  cbn [run fold_left]. apply IH; [exact Hrest |]. now apply Hstep.
Qed.

Lemma rootSpan_selfAfter (ev : Event num) (w : World num) :
  Instance.rootSpan (selfAfter ev w) = Instance.rootSpan (self w).
Proof.
  destruct ev as [resources | | state now | doc metric | [[fcpEntry navigationEntry]]
                  | o entries | timer resources]; cbn; try reflexivity.
  - now destruct (Host.hasPerformanceObserver (host w)).
  - now destruct (String.eqb state "hidden").
  - destruct navigationEntry; [| reflexivity].
    now destruct (Instance.wasNavigationEntryPushed (self w)).
Qed.

Lemma Trace_resourceSpansFrom (root : SpanId)
  (entries : list (ResourceTiming.t num)) :
  forall next log,
    Trace root next log ->
    Trace root (length entries + next) (log ++ resourceSpansFrom root next entries).
Proof.
  induction entries as [|entry rest IH]; intros next log Hlog.
  - cbn. now rewrite app_nil_r.
  - cbn [resourceSpansFrom length]. rewrite app_assoc.
    replace (S (length rest) + next) with (length rest + S next) by lia.
    apply IH. unfold resourceSpanCalls. now apply Trace_nested.
Qed.

Lemma Trace_step (ev : Event num) (w : World num) :
  Trace (Instance.rootSpan (self w)) (Host.nextSpanId (host w)) (tracerLog w) ->
  Trace (Instance.rootSpan (self (step ev w))) (Host.nextSpanId (host (step ev w)))
    (tracerLog (step ev w)).
Proof.
  intros Hlog. rewrite step_transition. unfold transition, tracerLog in *.
  cbn [self host Host.tracerCalls Host.nextSpanId]. rewrite rootSpan_selfAfter.
  set (root := Instance.rootSpan (self w)) in *.
  destruct ev as [resources | | state now | doc metric | [[fcpEntry navigationEntry]]
                  | o entries | timer resources]; cbn [callsOf spansOfEvent]; fold root.
  - destruct (Host.hasPerformanceObserver (host w)).
    + now rewrite app_nil_r.
    + now apply Trace_resourceSpansFrom.
  - now apply Trace_shutdown.
  - now rewrite app_nil_r.
  - destruct (LCPMetricWithAttribution.lcpEntry _).
    + now apply Trace_nested.
    + now rewrite app_nil_r.
  - cbn. destruct navigationEntry as [entry|];
      [destruct (Instance.wasNavigationEntryPushed (self w)) |];
      destruct fcpEntry as [paint|]; cbn [app]; rewrite ?app_nil_r; try assumption.
    + now apply Trace_nested.
    + change (Trace root (S (Host.nextSpanId (host w)))
                (Host.tracerCalls (host w) ++
                 navigationCalls root entry ++
                 [StartNestedSpan (Host.nextSpanId (host w))
                    (kebabToScreamingSnakeCase (PerformanceEntry.name paint)) root []
                    num_zero;
                  EndSpan (Host.nextSpanId (host w))
                    (Some (PerformanceEntry.startTime paint))])).
      rewrite app_assoc. apply Trace_nested. now apply Trace_navigation.
    + now apply Trace_navigation.
    + now apply Trace_nested.
  - case_bool_decide.
    + now apply Trace_resourceSpansFrom.
    + now rewrite app_nil_r.
  - now rewrite app_nil_r.
Qed.

(** What the shape of a log says about handles and ends. *)
Lemma Trace_handles (root next : SpanId) (log : list (TracerCall num)) :
  Trace root next log ->
  root < next /\
  omap startedSpan log = seq root (next - root) /\
  forall s, root < s ->
    length (List.filter (isEndOf s) log) = if (s <? next)%nat then 1 else 0.
Proof.
  induction 1 as [name attrs t | next log name attrs t t' _ (Hlt & Hstarts & Hends)
                  | next log attrs t _ (Hlt & Hstarts & Hends)
                  | next log _ (Hlt & Hstarts & Hends)].
  - split; [lia |]. split.
    + replace (S root - root) with 1 by lia. reflexivity.
    + intros s Hs. destruct (Nat.ltb_spec s (S root)); [lia | reflexivity].
  - split; [lia |]. split.
    + rewrite omap_app, Hstarts. cbn.
      replace (S next - root) with (S (next - root)) by lia.
      rewrite seq_S. do 2 f_equal. lia.
    + intros s Hs. rewrite List.filter_app, length_app, (Hends s Hs).
      destruct (Nat.ltb_spec s next), (Nat.ltb_spec s (S next));
        cbn [List.filter isEndOf length];
        destruct (Nat.eqb_spec next s); cbn [length]; lia.
  - split; [lia |]. split.
    + rewrite omap_app, Hstarts. cbn. apply app_nil_r.
    + intros s Hs. rewrite List.filter_app, length_app, (Hends s Hs).
      cbn [List.filter isEndOf length].
      destruct (Nat.eqb_spec root s); cbn [length]; lia.
  - split; [lia |]. split.
    + rewrite omap_app, Hstarts. cbn. apply app_nil_r.
    + intros s Hs. rewrite List.filter_app, length_app, (Hends s Hs).
      cbn [List.filter isEndOf length].
      destruct (Nat.eqb_spec root s); cbn [length]; lia.
Qed.

(** X5.  From construction through any sequence of events, the log has
    one shape: the start of the root span, then, in any order and number,
    a nested span started under the root and ended at once, the
    navigation pair on the root, or a bare end of the root.  So the class
    starts no second root span, sets attributes on the root only, nests
    no span under a nested one and leaves none open: the spans started
    are numbered 0, 1, 2, ... and each nested one has exactly one end
    call. *)
Theorem log_has_one_shape
  (ignoreResourceUrls : option (list string)) (hasPO : bool)
  (evs : list (Event num)) :
  let w := run evs (construct ignoreResourceUrls (Host.initial num hasPO)) in
  Instance.rootSpan (self w) = 0 /\
  Trace 0 (Host.nextSpanId (host w)) (tracerLog w) /\
  omap startedSpan (tracerLog w) = seq 0 (Host.nextSpanId (host w)) /\
  Forall (fun s => length (List.filter (isEndOf s) (tracerLog w)) = 1)
    (seq 1 (Host.nextSpanId (host w) - 1)).
Proof.
  intros w.
  assert (Hinv : Instance.rootSpan (self w) = 0 /\
                 Trace (Instance.rootSpan (self w)) (Host.nextSpanId (host w))
                   (tracerLog w)).
  { subst w. apply (run_invariant
      (fun w => Instance.rootSpan (self w) = 0 /\
                Trace (Instance.rootSpan (self w)) (Host.nextSpanId (host w))
                  (tracerLog w))).
    - intros ev w [Hroot Hlog]. split; [| now apply Trace_step].
      rewrite step_transition. cbn [transition self].
      now rewrite rootSpan_selfAfter.
    - split; [reflexivity |]. cbn. apply Trace_root. }
  destruct Hinv as [Hroot Hlog]. rewrite Hroot in Hlog.
  destruct (Trace_handles _ _ _ Hlog) as (Hlt & Hstarts & Hends).
  split; [exact Hroot |]. split; [exact Hlog |]. split.
  - now rewrite Nat.sub_0_r in Hstarts.
  - apply Forall_forall. intros s Hs. apply elem_of_seq in Hs.
    rewrite (Hends s) by lia.
    destruct (Nat.ltb_spec s (Host.nextSpanId (host w))); [reflexivity | lia].
Qed.

End RunInvariants.

(** ** Ends of the root span, timers, and the two strategies *)

Section RootAndTimers.
Context {num : Type} `{JsNumber num}.

Lemma filter_end_nested (root span : SpanId) (calls : list (TracerCall num)) :
  root < span -> Forall (onSpanFrom span) calls ->
  List.filter (isEndOf root) calls = [].
Proof.
  intros Hlt Hall. induction Hall as [|c calls Hc _ IH]; [reflexivity |].
  cbn [List.filter]. rewrite IH.
  destruct c as [| | |s t]; cbn in *; try reflexivity; try contradiction.
  destruct (Nat.eqb_spec s root); [lia | reflexivity].
Qed.

Lemma callsOf_root_ends (ev : Event num) (w : World num) :
  Instance.rootSpan (self w) < Host.nextSpanId (host w) ->
  length (List.filter (isEndOf (Instance.rootSpan (self w))) (callsOf ev w))
  = (if Instance.wasNavigationEntryPushed (self w) then 0
     else match navigationEntryOf ev with Some _ => 1 | None => 0 end)
    + (if isDisable ev then 1 else 0).
Proof.
  intros Hlt. set (root := Instance.rootSpan (self w)) in *.
  assert (Hne : Nat.eqb (Host.nextSpanId (host w)) root = false)
    by (apply Nat.eqb_neq; lia).
  destruct ev as [resources | | state now | doc metric | [[fcpEntry navigationEntry]]
                  | o entries | timer resources];
    cbn [callsOf navigationEntryOf isDisable]; fold root.
  - destruct (Host.hasPerformanceObserver (host w));
      [now destruct (Instance.wasNavigationEntryPushed (self w)) |].
    rewrite (filter_end_nested root (Host.nextSpanId (host w)));
      [| exact Hlt | apply resourceSpansFrom_onSpanFrom].
    now destruct (Instance.wasNavigationEntryPushed (self w)).
  - cbn. rewrite Nat.eqb_refl.
    now destruct (Instance.wasNavigationEntryPushed (self w)).
  - now destruct (Instance.wasNavigationEntryPushed (self w)).
  - destruct (LCPMetricWithAttribution.lcpEntry _); cbn; rewrite ?Hne;
      now destruct (Instance.wasNavigationEntryPushed (self w)).
  - cbn. destruct navigationEntry as [entry|];
      [destruct (Instance.wasNavigationEntryPushed (self w)) |];
      destruct fcpEntry as [paint|]; cbn; rewrite ?Nat.eqb_refl, ?Hne; cbn;
      try reflexivity;
      now destruct (Instance.wasNavigationEntryPushed (self w)).
  - case_bool_decide.
    + rewrite (filter_end_nested root (Host.nextSpanId (host w)));
        [| exact Hlt | apply resourceSpansFrom_onSpanFrom].
      now destruct (Instance.wasNavigationEntryPushed (self w)).
    + now destruct (Instance.wasNavigationEntryPushed (self w)).
  - now destruct (Instance.wasNavigationEntryPushed (self w)).
Qed.

Lemma run_root_ends (evs : list (Event num)) :
  forall w : World num,
    Instance.rootSpan (self w) < Host.nextSpanId (host w) ->
    length (List.filter (isEndOf (Instance.rootSpan (self w))) (tracerLog (run evs w)))
    = length (List.filter (isEndOf (Instance.rootSpan (self w))) (tracerLog w))
      + (if Instance.wasNavigationEntryPushed (self w) then 0
         else match firstNavigationEntry evs with Some _ => 1 | None => 0 end)
      + length (List.filter isDisable evs).
Proof.
  induction evs as [|ev rest IH]; intros w Hlt.
  - cbn. destruct (Instance.wasNavigationEntryPushed (self w)); lia.
  - cbn [run fold_left firstNavigationEntry List.filter].
    destruct (step_navigation ev w Hlt) as (Hroot & Hnext & Hflag & _).
    specialize (IH (step ev w)). rewrite Hroot in IH.
    unfold run in IH. rewrite IH by lia. rewrite Hflag.
    rewrite step_transition. unfold tracerLog at 1. cbn [transition host Host.tracerCalls].
    rewrite List.filter_app, length_app, (callsOf_root_ends ev w Hlt).
    unfold tracerLog.
    destruct (Instance.wasNavigationEntryPushed (self w)),
      (navigationEntryOf ev), (isDisable ev), (firstNavigationEntry rest);
      cbn [orb length]; lia.
Qed.

(** X6.  The root span is ended once when navigation timing is recorded
    and once more by every call of [disable]: the number of end calls on
    it is the number of [disable] calls, plus one if some report carried
    a navigation entry. *)
Theorem root_span_end_calls
  (ignoreResourceUrls : option (list string)) (hasPO : bool)
  (evs : list (Event num)) :
  length (List.filter (isEndOf 0)
            (tracerLog (run evs (construct ignoreResourceUrls (Host.initial num hasPO)))))
  = match firstNavigationEntry evs with Some _ => 1 | None => 0 end
    + length (List.filter isDisable evs).
Proof.
  pose proof (run_root_ends evs (construct ignoreResourceUrls (Host.initial num hasPO)))
    as Hrun.
  cbn in Hrun. rewrite Hrun by lia. reflexivity.
Qed.

End RootAndTimers.

Section TimersAndStrategies.
Context {num : Type} `{JsNumber num}.

Lemma pollTimeout_selfAfter (ev : Event num) (w : World num) :
  Instance.resourceEntryPollTimeout (selfAfter ev w)
  = match ev with
    | EvEnable _ =>
        if Host.hasPerformanceObserver (host w)
        then Instance.resourceEntryPollTimeout (self w)
        else Some (Host.nextTimerId (host w))
    | _ => Instance.resourceEntryPollTimeout (self w)
    end.
Proof.
  destruct ev as [resources | | state now | doc metric | [[fcpEntry navigationEntry]]
                  | o entries | timer resources]; cbn; try reflexivity.
  - now destruct (Host.hasPerformanceObserver (host w)).
  - now destruct (String.eqb state "hidden").
  - destruct navigationEntry; [| reflexivity].
    now destruct (Instance.wasNavigationEntryPushed (self w)).
Qed.




Lemma neverPolled_step (ev : Event num) (w : World num) :
  Host.hasPerformanceObserver (host w) = true ->
  neverPolled w -> neverPolled (step ev w).
Proof.
  intros HPO (Hnone & Hfield & Hset). rewrite step_transition.
  unfold neverPolled, transition. cbn [self host Host.pendingTimers].
  rewrite pollTimeout_selfAfter.
  destruct ev as [resources | | state now | doc metric | [[fcpEntry navigationEntry]]
                  | o entries | timer resources];
    cbn [timersAfter selfAfter]; rewrite ?HPO, ?Hnone; cbn;
    try destruct (String.eqb state "hidden");
    try destruct navigationEntry;
    try destruct (Instance.wasNavigationEntryPushed (self w));
    cbn; repeat split; try assumption; apply delete_empty.
Qed.

Lemma neverObserved_step (ev : Event num) (w : World num) :
  Host.hasPerformanceObserver (host w) = false ->
  neverObserved w -> neverObserved (step ev w).
Proof.
  intros HPO (Hnone & Hfield & Hnext). rewrite step_transition.
  unfold neverObserved, transition.
  cbn [self host Host.observing Host.nextObserverId].
  destruct ev as [resources | | state now | doc metric | [[fcpEntry navigationEntry]]
                  | o entries | timer resources];
    cbn [observingAfter nextObserverAfter selfAfter]; rewrite ?HPO, ?Hfield; cbn;
    try destruct (String.eqb state "hidden");
    try destruct navigationEntry;
    try destruct (Instance.wasNavigationEntryPushed (self w));
    cbn; repeat split; assumption.
Qed.

Lemma hasPerformanceObserver_run (evs : list (Event num)) (w : World num) :
  Host.hasPerformanceObserver (host (run evs w)) = Host.hasPerformanceObserver (host w).
Proof.
  revert w. induction evs as [|ev rest IH]; intros w; [reflexivity |].
  cbn [run fold_left]. unfold run in IH. rewrite IH. now rewrite step_transition.
Qed.

Lemma neverPolled_run (ignoreResourceUrls : option (list string))
  (evs : list (Event num)) :
  neverPolled (run evs (construct ignoreResourceUrls (Host.initial num true))).
Proof.
  apply (run_invariant
    (fun w => Host.hasPerformanceObserver (host w) = true /\ neverPolled w)).
  - intros ev w [HPO Hw]. split;
      [now rewrite step_transition | now apply neverPolled_step].
  - repeat split.
Qed.

Lemma neverObserved_run (ignoreResourceUrls : option (list string))
  (evs : list (Event num)) :
  neverObserved (run evs (construct ignoreResourceUrls (Host.initial num false))).
Proof.
  apply (run_invariant
    (fun w => Host.hasPerformanceObserver (host w) = false /\ neverObserved w)).
  - intros ev w [HPO Hw]. split;
      [now rewrite step_transition | now apply neverObserved_step].
  - repeat split.
Qed.

(** X8.  The two strategies never mix.  On a host with
    [PerformanceObserver], whatever the events, no timer is ever armed, no
    handle stored and the dedup set stays empty.  On a host without it,
    whatever the events, no observer is ever created or connected. *)
Theorem strategies_never_mix
  (ignoreResourceUrls : option (list string)) (evs : list (Event num)) :
  neverPolled (run evs (construct ignoreResourceUrls (Host.initial num true))) /\
  neverObserved (run evs (construct ignoreResourceUrls (Host.initial num false))).
Proof.
  split; [apply neverPolled_run | apply neverObserved_run].
Qed.

End TimersAndStrategies.

(** ** Which events make resource spans *)

Section ResourceSpans.
Context {num : Type} `{JsNumber num}.

Lemma resourceSpanKey_callsOf (ev : Event num) (w : World num) :
  omap resourceSpanKey (callsOf ev w) = map getResourceEntryKey (convertedBy ev w).
Proof.
  destruct ev as [resources | | state now | doc metric | [[fcpEntry navigationEntry]]
                  | o entries | timer resources]; cbn [callsOf convertedBy];
    try reflexivity.
  - destruct (Host.hasPerformanceObserver (host w)); [reflexivity |].
    apply resourceSpanKey_resourceSpansFrom.
  - now destruct (LCPMetricWithAttribution.lcpEntry _).
  - cbn. destruct navigationEntry as [entry|];
      [destruct (Instance.wasNavigationEntryPushed (self w)) |];
      destruct fcpEntry as [paint|]; reflexivity.
  - case_bool_decide; [apply resourceSpanKey_resourceSpansFrom | reflexivity].
Qed.

Lemma resourceSpanKey_step (ev : Event num) (w : World num) :
  omap resourceSpanKey (tracerLog (step ev w))
  = (omap resourceSpanKey (tracerLog w)
     ++ map getResourceEntryKey (convertedBy ev w))%list.
Proof.
  rewrite step_transition. unfold tracerLog. cbn [transition host Host.tracerCalls].
  now rewrite omap_app, resourceSpanKey_callsOf.
Qed.

Lemma resourceEntriesSet_step (ev : Event num) (w : World num) :
  Instance.resourceEntriesSet (self (step ev w))
  = match ev with
    | EvEnable resources =>
        if Host.hasPerformanceObserver (host w)
        then Instance.resourceEntriesSet (self w)
        else keysOf (getResourcesToTrack (self w) resources)
             ∪ Instance.resourceEntriesSet (self w)
    | _ => Instance.resourceEntriesSet (self w)
    end.
Proof.
  rewrite step_transition. cbn [transition self].
  destruct ev as [resources | | state now | doc metric | [[fcpEntry navigationEntry]]
                  | o entries | timer resources]; cbn; try reflexivity.
  - now destruct (Host.hasPerformanceObserver (host w)).
  - now destruct (String.eqb state "hidden").
  - destruct navigationEntry; [| reflexivity].
    now destruct (Instance.wasNavigationEntryPushed (self w)).
Qed.

Lemma freshEntries_keysOf (entries : list (ResourceTiming.t num)) :
  forall seen : gset string,
    list_to_set (map getResourceEntryKey (freshEntries seen entries)) ∪ seen
    = keysOf entries ∪ seen.
Proof.
  induction entries as [|entry rest IH]; intros seen; [reflexivity |].
  cbn [freshEntries]. rewrite keysOf_cons. case_bool_decide as Hseen.
  - rewrite IH. set_solver.
  - cbn [map list_to_set].
    specialize (IH ({[getResourceEntryKey entry]} ∪ seen)).
    set (made := list_to_set _) in *. set (keys := keysOf rest) in *.
    clearbody made keys. set_unfold. intros x. specialize (IH x). tauto.
Qed.

Lemma observing_step (ev : Event num) (w : World num) :
  Host.observing (host (step ev w)) = observingAfter ev w.
Proof. now rewrite step_transition. Qed.

(** X9.  On a host without [PerformanceObserver], from construction
    through any sequence of events, the dedup set is exactly the set of
    keys of the resource spans in the log: a key is recorded if and only
    if a span was made for it.  So right after [enable] has run its poll
    cycle, every enumerated entry that passes the filter has a span with
    its key. *)
Theorem dedup_set_is_keys_of_spans
  (ignoreResourceUrls : option (list string)) (evs : list (Event num))
  (resources : list (ResourceTiming.t num)) :
  let w := run evs (construct ignoreResourceUrls (Host.initial num false)) in
  Instance.resourceEntriesSet (self w)
    = list_to_set (omap resourceSpanKey (tracerLog w)) /\
  Forall (fun entry =>
            getResourceEntryKey entry
            ∈ omap resourceSpanKey (tracerLog (step (EvEnable resources) w)))
    (getResourcesToTrack (self w) resources).
Proof.
  intros w.
  assert (Hinv : forall evs,
    let w := run evs (construct ignoreResourceUrls (Host.initial num false)) in
    (Host.hasPerformanceObserver (host w) = false /\ neverObserved w) /\
    Instance.resourceEntriesSet (self w)
      = list_to_set (omap resourceSpanKey (tracerLog w))).
  { intros evs'. apply (run_invariant
      (fun w => (Host.hasPerformanceObserver (host w) = false /\ neverObserved w) /\
                Instance.resourceEntriesSet (self w)
                  = list_to_set (omap resourceSpanKey (tracerLog w)))).
    - intros ev w1 [[HPO Hobs] Hset]. split.
      + split; [now rewrite step_transition | now apply neverObserved_step].
      + rewrite resourceEntriesSet_step, resourceSpanKey_step, list_to_set_app_L.
        rewrite <- Hset. destruct Hobs as (Hnone & _).
        destruct ev as [rs | | | | | o entries |]; cbn [convertedBy];
          rewrite ?HPO, ?Hnone; cbn [map list_to_set];
          try (rewrite bool_decide_eq_false_2 by set_solver; cbn [map list_to_set]);
          try set_solver.
        rewrite <- (freshEntries_keysOf (getResourcesToTrack (self w1) rs)).
        set_solver.
    - repeat split. }
  split; [apply (Hinv evs) |].
  apply Forall_forall. intros entry Hentry.
  destruct (Hinv (evs ++ [EvEnable resources])%list) as [[HPO _] Hset].
  rewrite run_app in Hset, HPO. cbn [run fold_left] in Hset, HPO. fold w in Hset, HPO.
  apply (elem_of_list_to_set (C := gset string)). rewrite <- Hset.
  rewrite resourceEntriesSet_step.
  destruct (Hinv evs) as [[HPO' _] _]. fold w in HPO'. rewrite HPO'.
  apply elem_of_union_l. unfold keysOf. apply elem_of_list_to_set.
  now apply list_elem_of_fmap_2.
Qed.

Lemma quietAt_step (keys : list string) (seen : gset string)
  (ev : Event num) (w : World num) :
  negb (isEnable ev) = true -> quietAt keys seen w -> quietAt keys seen (step ev w).
Proof.
  intros Hev (Hnone & Hkeys & Hseen). unfold quietAt.
  rewrite observing_step, resourceSpanKey_step, resourceEntriesSet_step, Hkeys.
  destruct ev as [rs | | | | | o entries |]; try discriminate Hev;
    cbn [observingAfter convertedBy map]; rewrite ?app_nil_r; try now repeat split.
  - split; [| now split].
    destruct (Instance.resourceTimingObserver (self w)); rewrite ?Hnone; set_solver.
  - rewrite Hnone. rewrite bool_decide_eq_false_2 by set_solver.
    cbn. rewrite app_nil_r. now repeat split.
Qed.

(** X10.  On a host without [PerformanceObserver] only [enable] itself
    makes resource spans: no other event (a timer firing included) adds a
    resource span to the log or a key to the dedup set, so an entry that
    appears after the last call of [enable] never gets a span.  A timer
    that fires is spent and not armed again. *)
Theorem polling_does_not_continue
  (ignoreResourceUrls : option (list string)) (evs later : list (Event num))
  (Hlater : forallb (fun ev => negb (isEnable ev)) later = true) :
  let w := run evs (construct ignoreResourceUrls (Host.initial num false)) in
  omap resourceSpanKey (tracerLog (run later w)) = omap resourceSpanKey (tracerLog w) /\
  Instance.resourceEntriesSet (self (run later w)) = Instance.resourceEntriesSet (self w) /\
  forall timer resources,
    Host.pendingTimers (host (step (EvTimer timer resources) (run later w)))
    = delete timer (Host.pendingTimers (host (run later w))).
Proof.
  intros w.
  destruct (neverObserved_run ignoreResourceUrls evs) as (Hnone & _).
  fold w in Hnone.
  destruct (run_invariant_when (fun ev => negb (isEnable ev))
              (quietAt (omap resourceSpanKey (tracerLog w))
                 (Instance.resourceEntriesSet (self w)))
              (quietAt_step _ _) later w Hlater) as (_ & Hkeys & Hseen);
    [now repeat split |].
  split; [exact Hkeys |]. split; [exact Hseen |].
  intros timer resources. now rewrite step_transition.
Qed.



End ResourceSpans.

(** ** Batches of resource entries *)

Section Batches.
Context {num : Type} `{JsNumber num}.

Lemma resourceSpansFrom_app (root : SpanId) (first : list (ResourceTiming.t num)) :
  forall span second,
    resourceSpansFrom root span (first ++ second)
    = (resourceSpansFrom root span first
       ++ resourceSpansFrom root (length first + span) second)%list.
Proof.
  induction first as [|entry rest IH]; intros span second; [reflexivity |].
  cbn [app resourceSpansFrom length]. rewrite IH, <- app_assoc.
  now replace (length rest + S span) with (S (length rest) + span) by lia.
Qed.

Lemma getResourcesToTrack_app (s : Instance.t num)
  (first second : list (ResourceTiming.t num)) :
  getResourcesToTrack s (first ++ second)
  = (getResourcesToTrack s first ++ getResourcesToTrack s second)%list.
Proof. unfold getResourcesToTrack. apply List.filter_app. Qed.

Lemma freshEntries_app (first : list (ResourceTiming.t num)) :
  forall (seen : gset string) second,
    freshEntries seen (first ++ second)
    = (freshEntries seen first ++ freshEntries (keysOf first ∪ seen) second)%list.
Proof.
  induction first as [|entry rest IH]; intros seen second.
  - cbn [app freshEntries]. unfold keysOf. cbn [map list_to_set].
    now rewrite (left_id_L ∅ (∪)).
  - cbn [app freshEntries]. rewrite keysOf_cons. case_bool_decide as Hseen.
    + rewrite IH. do 2 f_equal.
      set (keys := keysOf rest). clearbody keys. set_solver.
    + cbn [app]. rewrite IH. do 3 f_equal.
      set (keys := keysOf rest). clearbody keys. set_solver.
Qed.

Lemma freshEntries_seen_prefix (first : list (ResourceTiming.t num))
  (seen : gset string) (second : list (ResourceTiming.t num)) :
  keysOf first ⊆ seen -> freshEntries seen (first ++ second) = freshEntries seen second.
Proof.
  induction first as [|entry rest IH]; intros Hsub; [reflexivity |].
  rewrite keysOf_cons in Hsub. cbn [app freshEntries].
  rewrite bool_decide_eq_true_2 by set_solver. apply IH. set_solver.
Qed.

(** X12.  The observer callback has no memory: two batches delivered one
    after the other leave the world that the two delivered as one batch
    would, and every entry of a batch that passes the filter adds a resource
    span, also when an entry with the same key had one before. *)
Theorem observer_batches_compose
  (first second : list (ResourceTiming.t num)) (w : World num) :
  execute (resourceTimingObserverCallback second)
    (execute (resourceTimingObserverCallback first) w)
  = execute (resourceTimingObserverCallback (first ++ second)%list) w /\
  omap resourceSpanKey (tracerLog (execute (resourceTimingObserverCallback first) w))
  = (omap resourceSpanKey (tracerLog w)
     ++ map getResourceEntryKey (getResourcesToTrack (self w) first))%list.
Proof.
  unfold execute. rewrite !resourceTimingObserverCallback_effect. cbn [snd self host].
  split.
  - rewrite emit_emit, getResourcesToTrack_app, resourceSpansFrom_app, length_app.
    reflexivity.
  - unfold tracerLog. cbn [host emit Host.tracerCalls].
    now rewrite omap_app, resourceSpanKey_resourceSpansFrom.
Qed.

(** X13.  Poll cycles are incremental.  Two cycles, on [first] and then on
    [second], leave the log, the next span handle and the dedup set that
    one cycle on [first ++ second] leaves; and so does a cycle on [first]
    followed by one on the grown enumeration [first ++ second], which is how
    the browser's list of resource entries evolves between two calls. *)
Theorem poll_cycles_compose
  (first second : list (ResourceTiming.t num)) (w : World num) :
  let poll resources := execute (pollResourceTimingEntries ThisInstance resources) in
  let once := poll (first ++ second)%list w in
  (tracerLog (poll second (poll first w)) = tracerLog once /\
   Host.nextSpanId (host (poll second (poll first w))) = Host.nextSpanId (host once) /\
   Instance.resourceEntriesSet (self (poll second (poll first w)))
     = Instance.resourceEntriesSet (self once)) /\
  (tracerLog (poll (first ++ second)%list (poll first w)) = tracerLog once /\
   Host.nextSpanId (host (poll (first ++ second)%list (poll first w)))
     = Host.nextSpanId (host once) /\
   Instance.resourceEntriesSet (self (poll (first ++ second)%list (poll first w)))
     = Instance.resourceEntriesSet (self once)).
Proof.
  intros poll once. subst poll once. cbv beta. unfold execute.
  rewrite !pollResourceTimingEntries_instance. cbn [snd].
  unfold tracerLog, afterPoll, getResourcesToTrack.
  cbn [self host withTimers emit Host.tracerCalls Host.nextSpanId
       set_resourceEntryPollTimeout set_resourceEntriesSet
       Instance.resourceEntriesSet Instance.rootSpan Instance.ignoreResourceUrls].
  rewrite !List.filter_app.
  set (f1 := List.filter _ first). set (f2 := List.filter _ second).
  set (seen := Instance.resourceEntriesSet (self w)).
  rewrite (freshEntries_seen_prefix f1 (keysOf f1 ∪ seen) f2) by set_solver.
  rewrite (freshEntries_app f1 seen f2), resourceSpansFrom_app, !length_app.
  assert (Hkeys : keysOf (f1 ++ f2)%list = keysOf f1 ∪ keysOf f2).
  { unfold keysOf. now rewrite map_app, list_to_set_app_L. }
  rewrite Hkeys. clear Hkeys.
  set (k1 := keysOf f1). set (k2 := keysOf f2). clearbody k1 k2.
  repeat split; rewrite <- ?app_assoc; try reflexivity; try lia; set_solver.
Qed.

End Batches.

Lemma polling_does_not_continue_witness :
  omap resourceSpanKey
    (tracerLog (run [EvTimer 1%N apiAndStatic; EvDisable;
                     EvObserverEntries 0 apiAndStatic]
                  (run [EvEnable apiAndStatic] (ignoringApi false))))
  = omap resourceSpanKey (tracerLog (run [EvEnable apiAndStatic] (ignoringApi false))).
Proof.
  apply (proj1 (polling_does_not_continue (Some ["/api/"]) [EvEnable apiAndStatic]
                  [EvTimer 1%N apiAndStatic; EvDisable;
                   EvObserverEntries 0 apiAndStatic] eq_refl)).
Defined.


(** ** What repeated calls of [enable] leave behind *)

Section RepeatedEnable.
Context {num : Type} `{JsNumber num}.

Lemma connected_step (o : ObserverId) (ev : Event num) (w : World num) :
  negb (isDisable ev) = true -> connected o w -> connected o (step ev w).
Proof.
  intros Hev [Hin Hlt]. unfold connected. rewrite step_transition.
  cbn [transition host Host.observing Host.nextObserverId].
  destruct ev as [rs | | | | | |]; try discriminate Hev;
    cbn [observingAfter nextObserverAfter]; try (now split).
  destruct (Host.hasPerformanceObserver (host w)); split; try assumption;
    [set_solver | lia].
Qed.

Lemma orphaned_step (o : ObserverId) (ev : Event num) (w : World num) :
  orphaned o w -> orphaned o (step ev w).
Proof.
  intros [[Hin Hlt] (held & Hheld & Hother)]. unfold orphaned, connected.
  rewrite step_transition.
  cbn [transition self host Host.observing Host.nextObserverId].
  destruct ev as [rs | | state now | doc metric | [[fcpEntry navigationEntry]]
                  | o' entries | timer rs];
    cbn [observingAfter nextObserverAfter selfAfter].
  - destruct (Host.hasPerformanceObserver (host w)).
    + split; [split; [set_solver | lia] |].
      exists (Host.nextObserverId (host w)). split; [reflexivity | lia].
    + split; [now split |]. exists held. now split.
  - rewrite Hheld. split; [split; [set_solver | assumption] |].
    exists held. now split.
  - split; [now split |]. exists held.
    destruct (String.eqb state "hidden"); now split.
  - split; [now split |]. exists held. now split.
  - split; [now split |]. exists held. cbn.
    destruct navigationEntry;
      [destruct (Instance.wasNavigationEntryPushed (self w)) |]; now split.
  - split; [now split |]. exists held. now split.
  - split; [now split |]. exists held. now split.
Qed.

(** X14.  On a host with [PerformanceObserver], a second call of [enable]
    with no [disable] since the first orphans the first observer: the
    instance holds the new one, so nothing that follows, [disable]
    included, disconnects the first, and entries delivered to it go on
    making resource spans. *)
Theorem second_enable_orphans_observer
  (ignoreResourceUrls : option (list string))
  (resources resources' : list (ResourceTiming.t num))
  (before between later : list (Event num))
  (Hbetween : forallb (fun ev => negb (isDisable ev)) between = true) :
  let w0 := construct ignoreResourceUrls (Host.initial num true) in
  let first := Host.nextObserverId (host (run before w0)) in
  let w := run (before ++ [EvEnable resources] ++ between
                  ++ [EvEnable resources'] ++ later)%list w0 in
  first ∈ Host.observing (host w) /\
  Instance.resourceTimingObserver (self w) <> Some first /\
  forall entries,
    omap resourceSpanKey (tracerLog (step (EvObserverEntries first entries) w))
    = (omap resourceSpanKey (tracerLog w)
       ++ map getResourceEntryKey (getResourcesToTrack (self w) entries))%list.
Proof.
  intros w0 first w.
  set (w1 := step (EvEnable resources) (run before w0)).
  assert (HPO : forall evs, Host.hasPerformanceObserver (host (run evs w0)) = true)
    by (intros evs; now rewrite hasPerformanceObserver_run).
  assert (H1 : connected first w1).
  { subst w1. unfold connected. rewrite step_transition.
    cbn [transition host Host.observing Host.nextObserverId
         observingAfter nextObserverAfter].
    rewrite HPO. fold first. split; [set_solver | lia]. }
  pose proof (run_invariant_when (fun ev => negb (isDisable ev)) (connected first)
                (connected_step first) between w1 Hbetween H1) as [Hin Hlt].
  assert (Hrun : run between w1 = run (before ++ [EvEnable resources] ++ between)%list w0)
    by (subst w1; now rewrite !run_app).
  assert (H2 : orphaned first (step (EvEnable resources') (run between w1))).
  { unfold orphaned, connected. rewrite step_transition.
    cbn [transition self host Host.observing Host.nextObserverId
         observingAfter nextObserverAfter selfAfter].
    rewrite Hrun, HPO, <- Hrun.
    split; [split; [set_solver | lia] |].
    exists (Host.nextObserverId (host (run between w1))). split; [reflexivity | lia]. }
  assert (Hw : w = run later (step (EvEnable resources') (run between w1)))
    by (subst w w1; now rewrite !run_app).
  pose proof (run_invariant (orphaned first) (orphaned_step first) later _ H2)
    as [[Hin' _] (held & Hheld & Hother)].
  rewrite <- Hw in Hin', Hheld.
  split; [exact Hin' |]. split; [rewrite Hheld; congruence |].
  intros entries. rewrite resourceSpanKey_step. cbn [convertedBy].
  now rewrite bool_decide_eq_true_2 by exact Hin'.
Qed.



End RepeatedEnable.

(** ** The visibility fields over a run *)

Section VisibilityOverARun.
Context {num : Type} `{JsNumber num}.

Lemma last_cons_default {A : Type} (a : A) (l : list A) (d : A) :
  List.last (a :: l) d = List.last l a.
Proof.
  revert a d. induction l as [|b rest IH]; intros a d; [reflexivity |].
  change (List.last (a :: b :: rest) d) with (List.last (b :: rest) d).
  now rewrite (IH b d), (IH b a).
Qed.

Lemma pageLastHiddenAt_run (evs : list (Event num)) :
  forall w : World num,
    Instance.pageLastHiddenAt (self (run evs w))
    = List.last (hiddenTimes evs) (Instance.pageLastHiddenAt (self w)).
Proof.
  induction evs as [|ev rest IH]; intros w; [reflexivity |].
  cbn [run fold_left]. unfold run in IH. rewrite IH, step_transition.
  cbn [transition self].
  destruct ev as [rs | | state now | doc metric | [[fcpEntry navigationEntry]]
                  | o entries | timer rs];
    cbn [selfAfter hiddenTimes omap]; try reflexivity.
  - now destruct (Host.hasPerformanceObserver (host w)).
  - unfold hiddenTimes. cbn [omap list_omap].
    destruct (String.eqb state "hidden"); cbn [option_bind mbind];
      [now rewrite last_cons_default | reflexivity].
  - destruct navigationEntry;
      [destruct (Instance.wasNavigationEntryPushed (self w)) |]; reflexivity.
Qed.

(** X16.  The two visibility fields after any sequence of events from
    construction on.  [pageLastHiddenAt] is the time of the latest change
    to hidden, and 0 when there was none.  [pageHiddenFor] is 0 until the
    page changes to a visible state, and then the time of the latest such
    change minus the time of the latest change to hidden before it, or
    minus 0 when the page was never hidden before it. *)
Theorem visibility_fields_of_a_run
  (ignoreResourceUrls : option (list string)) (hasPO : bool)
  (evs : list (Event num)) :
  let w := run evs (construct ignoreResourceUrls (Host.initial num hasPO)) in
  Instance.pageLastHiddenAt (self w) = List.last (hiddenTimes evs) num_zero /\
  Instance.pageHiddenFor (self w) = hiddenForOf (rev evs).
Proof.
  intros w. subst w.
  set (w0 := construct ignoreResourceUrls (Host.initial num hasPO)).
  assert (Hat : forall evs,
            Instance.pageLastHiddenAt (self (run evs w0))
            = List.last (hiddenTimes evs) num_zero).
  { intros evs'. rewrite pageLastHiddenAt_run. subst w0.
    now destruct ignoreResourceUrls. }
  split; [apply Hat |].
  induction evs as [|ev earlier IH] using rev_ind.
  - subst w0. now destruct ignoreResourceUrls.
  - rewrite run_app, rev_app_distr. cbn [run fold_left rev app].
    rewrite step_transition. cbn [transition self].
    destruct ev as [rs | | state now | doc metric | [[fcpEntry navigationEntry]]
                    | o entries | timer rs];
      cbn [selfAfter hiddenForOf]; try exact IH.
    + now destruct (Host.hasPerformanceObserver (host (run earlier w0))).
    + destruct (String.eqb state "hidden"); [exact IH |].
      cbn. now rewrite rev_involutive, Hat.
    + destruct navigationEntry;
        [destruct (Instance.wasNavigationEntryPushed (self (run earlier w0))) |];
        exact IH.
Qed.

End VisibilityOverARun.

Lemma second_enable_orphans_observer_witness :
  0 ∈ Host.observing
        (host (run [EvEnable apiAndStatic; EvEnable apiAndStatic; EvDisable; EvDisable]
                 (ignoringApi true))).
Proof.
  apply (proj1 (second_enable_orphans_observer (Some ["/api/"])
                  apiAndStatic apiAndStatic [] [] [EvDisable; EvDisable] eq_refl)).
Defined.
